(** * HeatingFaceplate: the FreeCAD macro [FacePlate.py], embedded and verified

    The macro is one procedure, [create_faceplate], that reads the module's
    constants, computes positions and sizes in Python floats (IEEE binary64)
    and issues a fixed sequence of calls to FreeCAD's [Part] kernel and to the
    document.  The embedding keeps that shape:

    - numbers are Rocq's primitive binary64 floats, so every sum, difference,
      product and quotient rounds as it does in Python;
    - the module's constants are the fields of a record [Globals], read by
      every definition, with [defaults] holding the values of the file;
    - a [Part.Shape] is the term of kernel calls that built it (box, cylinder,
      cone, cut, fuse, fillet), in the order the macro issues them;
    - [makeFillet] is the one kernel call the macro guards with [try]: whether
      it raises is decided by the kernel, which is a parameter of the
      construction;
    - the document is the list of its objects, addressed by the handle
      [addObject] returns; printed lines are kept in order. *)

From Stdlib Require Import Floats ZArith List String Bool Lia DecimalString.
From Stdlib Require Import DecimalPos DecimalZ.
Import ListNotations.

Set Warnings "-inexact-float".

Local Open Scope float_scope.

(** ** Python numbers *)

(** [float(n)] for a Python int [n] with |n| < 2^63, the conversion Python
    inserts when an int meets a float in an arithmetic expression. *)
Definition float_of_int (n : Z) : float :=
  match n with
  | Z0 => 0
  | Zpos _ => PrimFloat.of_uint63 (Uint63.of_Z n)
  | Zneg p => - PrimFloat.of_uint63 (Uint63.of_Z (Zpos p))
  end.

(** [range(n)]: 0, 1, ..., n-1, empty when [n <= 0]. *)
Definition range (n : Z) : list Z :=
  map Z.of_nat (seq 0 (Z.to_nat n)).

(** [enumerate(l)]. *)
Definition enumerate {A : Type} (l : list A) : list (Z * A) :=
  combine (range (Z.of_nat (List.length l))) l.

(** [str(n)] for an int. *)
Definition str_of_int (n : Z) : string :=
  NilZero.string_of_int (Z.to_int n).

(** ** FreeCAD vectors *)

Module FreeCAD.

Record Vector : Type := mkVector { x : float; y : float; z : float }.

(** [a + b] on vectors. *)
Definition add (a b : Vector) : Vector :=
  mkVector (x a + x b) (y a + y b) (z a + z b).

End FreeCAD.

Abbreviation Vector := FreeCAD.mkVector.
Infix "+v" := FreeCAD.add (at level 50, left associativity).

(** ** The Part kernel, as far as the macro calls it *)

Module Part.

Record Vertex : Type := mkVertex { X : float; Y : float; Z : float }.

Record Edge : Type := mkEdge { Vertexes0 : Vertex; Vertexes1 : Vertex }.

(** A shape is the record of the calls that made it. *)
Inductive Shape : Type :=
| Null                                   (* Part.Shape() *)
| Box (length width height : float) (pnt : FreeCAD.Vector)
| Cylinder (radius height : float) (pnt dir : FreeCAD.Vector)
| Cone (radius1 radius2 height : float) (pnt dir : FreeCAD.Vector)
| Cut (base tool : Shape)
| Fuse (base tool : Shape)
| Fillet (radius : float) (edges : list Edge) (base : Shape).

Definition makeBox := Box.
Definition makeCylinder := Cylinder.
Definition makeCone := Cone.
Definition cut (s tool : Shape) : Shape := Cut s tool.
Definition fuse (s tool : Shape) : Shape := Fuse s tool.

Definition isNull (s : Shape) : bool :=
  match s with Null => true | _ => false end.

(** The twelve edges of a box with corner [pnt] and sides [l], [w], [h]:
    four on the bottom face, four on the top face, four parallel to Z.
    Only boxes have their edges read by the macro. *)
Definition Edges (s : Shape) : list Edge :=
  match s with
  | Box l w h p =>
      let x0 := FreeCAD.x p in let x1 := FreeCAD.x p + l in
      let y0 := FreeCAD.y p in let y1 := FreeCAD.y p + w in
      let z0 := FreeCAD.z p in let z1 := FreeCAD.z p + h in
      let v := mkVertex in
      [ mkEdge (v x0 y0 z0) (v x1 y0 z0); mkEdge (v x1 y0 z0) (v x1 y1 z0);
        mkEdge (v x1 y1 z0) (v x0 y1 z0); mkEdge (v x0 y1 z0) (v x0 y0 z0);
        mkEdge (v x0 y0 z1) (v x1 y0 z1); mkEdge (v x1 y0 z1) (v x1 y1 z1);
        mkEdge (v x1 y1 z1) (v x0 y1 z1); mkEdge (v x0 y1 z1) (v x0 y0 z1);
        mkEdge (v x0 y0 z0) (v x0 y0 z1); mkEdge (v x1 y0 z0) (v x1 y0 z1);
        mkEdge (v x1 y1 z0) (v x1 y1 z1); mkEdge (v x0 y1 z0) (v x0 y1 z1) ]
  | _ => []
  end.

(** What the kernel decides: whether [shape.makeFillet(radius, edges)]
    raises. *)
Record Kernel : Type := { fillet_raises : float -> list Edge -> Shape -> bool }.

(** [shape.makeFillet(radius, edges)]: [None] when the call raises. *)
Definition makeFillet (K : Kernel) (s : Shape) (radius : float)
    (edges : list Edge) : option Shape :=
  if fillet_raises K radius edges s then None
  else Some (Fillet radius edges s).

End Part.

(** ** The document *)

Module Document.

Record ViewObject : Type := mkViewObject {
  Transparency : Z;
  ShapeColor : option (float * float * float)   (* None: the host's default *)
}.

Record DocumentObject : Type := mkObject {
  TypeId : string;
  Name : string;
  Shape : Part.Shape;
  View : ViewObject
}.

Record t : Type := mkDocument {
  DocName : string;
  Objects : list DocumentObject
}.

(** [FreeCAD.newDocument(name)]. *)
Definition newDocument (name : string) : t := mkDocument name [].

(** [doc.addObject(type, name)]: the new object is appended; the handle
    returned is its index. *)
Definition addObject (doc : t) (type name : string) : t * nat :=
  (mkDocument (DocName doc)
     (Objects doc ++ [mkObject type name Part.Null (mkViewObject 0 None)]),
   List.length (Objects doc)).

Fixpoint update {A : Type} (l : list A) (i : nat) (f : A -> A) : list A :=
  match l, i with
  | [], _ => []
  | a :: l', O => f a :: l'
  | a :: l', S i' => a :: update l' i' f
  end.

Definition modify (doc : t) (h : nat) (f : DocumentObject -> DocumentObject) : t :=
  mkDocument (DocName doc) (update (Objects doc) h f).

(** [obj.Shape = s]. *)
Definition set_Shape (doc : t) (h : nat) (s : Part.Shape) : t :=
  modify doc h (fun o => mkObject (TypeId o) (Name o) s (View o)).

(** [obj.ViewObject.Transparency = n]. *)
Definition set_Transparency (doc : t) (h : nat) (n : Z) : t :=
  modify doc h (fun o =>
    mkObject (TypeId o) (Name o) (Shape o)
      (mkViewObject n (ShapeColor (View o)))).

(** [obj.ViewObject.ShapeColor = c]. *)
Definition set_ShapeColor (doc : t) (h : nat) (c : float * float * float) : t :=
  modify doc h (fun o =>
    mkObject (TypeId o) (Name o) (Shape o)
      (mkViewObject (Transparency (View o)) (Some c))).

(** [doc.recompute()]: a [Part::Feature] has no inputs to recompute from;
    its shape stays the one assigned. *)
Definition recompute (doc : t) : t := doc.

Definition object (doc : t) (h : nat) : option DocumentObject :=
  nth_error (Objects doc) h.

End Document.

(** ** Printed output *)

(** A fragment of an f-string: literal text or a formatted value. *)
Inductive Piece : Type :=
| Lit (s : string)
| Flt (f : float)
| Int (n : Z).

Definition Line : Type := list Piece.

(** ["=" * n]. *)
Fixpoint str_repeat (s : string) (n : nat) : string :=
  match n with
  | O => EmptyString
  | S n' => (s ++ str_repeat s n')%string
  end.

(** ** The module's constants *)

Record Globals : Type := mkGlobals {
  (* UK 2-gang faceplate dimensions (mm) *)
  FACEPLATE_WIDTH : float;
  FACEPLATE_HEIGHT : float;
  FACEPLATE_THICKNESS : float;
  (* Screw holes *)
  SCREW_SPACING : float;
  SCREW_DIAMETER : float;
  SCREW_COUNTERSINK_DIAMETER : float;
  SCREW_COUNTERSINK_DEPTH : float;
  (* BILRESA mounting plate *)
  BILRESA_LENGTH : float;
  BILRESA_WIDTH : float;
  BILRESA_THICKNESS : float;
  BILRESA_CORNER_RADIUS : float;
  NUM_BILRESA : Z;
  BILRESA_SPACING : float;
  (* LED holes *)
  LED_HOLE_DIAMETER : float;
  LED_HEAD_DIAMETER : float;
  LED_COUNTERSINK_DEPTH : float;
  (* BILRESA back pocket parameters *)
  BILRESA_FRONT_WALL : float;
  BILRESA_POCKET_DEPTH : float;
  BILRESA_CLEARANCE : float;
  (* Shelly 1PM Mini Gen4 dimensions (mm) *)
  SHELLY_WIDTH : float;
  SHELLY_HEIGHT : float;
  SHELLY_DEPTH : float;
  (* Shelly housing parameters *)
  SHELLY_WALL_THICKNESS : float;
  SHELLY_LIP_HEIGHT : float;
  SHELLY_LIP_DEPTH : float;
  SHELLY_CLEARANCE : float;
  SHELLY_SHELF_THICKNESS : float
}.

(** The values written in [FacePlate.py], lines 27-74. *)
Definition defaults : Globals := {|
  FACEPLATE_WIDTH := 146.0;
  FACEPLATE_HEIGHT := 86.0;
  FACEPLATE_THICKNESS := 4.0;
  SCREW_SPACING := 120.0;
  SCREW_DIAMETER := 4.0;
  SCREW_COUNTERSINK_DIAMETER := 8.0;
  SCREW_COUNTERSINK_DEPTH := 2.0;
  BILRESA_LENGTH := 47.0;
  BILRESA_WIDTH := 16.6;
  BILRESA_THICKNESS := 0.5;
  BILRESA_CORNER_RADIUS := 8.3;
  NUM_BILRESA := 3;
  BILRESA_SPACING := 40.0;
  LED_HOLE_DIAMETER := 10.75;
  LED_HEAD_DIAMETER := 11.6;
  LED_COUNTERSINK_DEPTH := 1.0;
  BILRESA_FRONT_WALL := 1.0;
  BILRESA_POCKET_DEPTH := 0.7;
  BILRESA_CLEARANCE := 0.2;
  SHELLY_WIDTH := 35.0;
  SHELLY_HEIGHT := 29.0;
  SHELLY_DEPTH := 16.0;
  SHELLY_WALL_THICKNESS := 2.0;
  SHELLY_LIP_HEIGHT := 2.0;
  SHELLY_LIP_DEPTH := 1.5;
  SHELLY_CLEARANCE := -0.75;
  SHELLY_SHELF_THICKNESS := 2.0
|}.

(** The module with [BILRESA_POCKET_DEPTH] rebound to [d] and every other
    constant as in [G]. *)
Definition with_BILRESA_POCKET_DEPTH (d : float) (G : Globals) : Globals := {|
  FACEPLATE_WIDTH := FACEPLATE_WIDTH G;
  FACEPLATE_HEIGHT := FACEPLATE_HEIGHT G;
  FACEPLATE_THICKNESS := FACEPLATE_THICKNESS G;
  SCREW_SPACING := SCREW_SPACING G;
  SCREW_DIAMETER := SCREW_DIAMETER G;
  SCREW_COUNTERSINK_DIAMETER := SCREW_COUNTERSINK_DIAMETER G;
  SCREW_COUNTERSINK_DEPTH := SCREW_COUNTERSINK_DEPTH G;
  BILRESA_LENGTH := BILRESA_LENGTH G;
  BILRESA_WIDTH := BILRESA_WIDTH G;
  BILRESA_THICKNESS := BILRESA_THICKNESS G;
  BILRESA_CORNER_RADIUS := BILRESA_CORNER_RADIUS G;
  NUM_BILRESA := NUM_BILRESA G;
  BILRESA_SPACING := BILRESA_SPACING G;
  LED_HOLE_DIAMETER := LED_HOLE_DIAMETER G;
  LED_HEAD_DIAMETER := LED_HEAD_DIAMETER G;
  LED_COUNTERSINK_DEPTH := LED_COUNTERSINK_DEPTH G;
  BILRESA_FRONT_WALL := BILRESA_FRONT_WALL G;
  BILRESA_POCKET_DEPTH := d;
  BILRESA_CLEARANCE := BILRESA_CLEARANCE G;
  SHELLY_WIDTH := SHELLY_WIDTH G;
  SHELLY_HEIGHT := SHELLY_HEIGHT G;
  SHELLY_DEPTH := SHELLY_DEPTH G;
  SHELLY_WALL_THICKNESS := SHELLY_WALL_THICKNESS G;
  SHELLY_LIP_HEIGHT := SHELLY_LIP_HEIGHT G;
  SHELLY_LIP_DEPTH := SHELLY_LIP_DEPTH G;
  SHELLY_CLEARANCE := SHELLY_CLEARANCE G;
  SHELLY_SHELF_THICKNESS := SHELLY_SHELF_THICKNESS G
|}.

(** ** [create_faceplate], statement by statement *)

Section CreateFaceplate.

Variable G : Globals.
Variable K : Part.Kernel.

(** *** Base faceplate (lines 90-97) *)

Definition base_box : Part.Shape :=
  Part.makeBox (FACEPLATE_WIDTH G) (FACEPLATE_HEIGHT G) (FACEPLATE_THICKNESS G)
    (Vector (- FACEPLATE_WIDTH G / 2) (- FACEPLATE_HEIGHT G / 2) 0).

(** *** Screw holes (lines 102-127) *)

Definition screw_positions : list FreeCAD.Vector :=
  [ Vector (- SCREW_SPACING G / 2) 0 0;
    Vector (SCREW_SPACING G / 2) 0 0 ].

Definition screw_hole (pos : FreeCAD.Vector) : Part.Shape :=
  Part.makeCylinder (SCREW_DIAMETER G / 2) (FACEPLATE_THICKNESS G + 1)
    (pos +v Vector 0 0 (-0.5)) (Vector 0 0 1).

Definition countersink (pos : FreeCAD.Vector) : Part.Shape :=
  Part.makeCone (SCREW_DIAMETER G / 2) (SCREW_COUNTERSINK_DIAMETER G / 2)
    (SCREW_COUNTERSINK_DEPTH G)
    (pos +v Vector 0 0 (FACEPLATE_THICKNESS G - SCREW_COUNTERSINK_DEPTH G))
    (Vector 0 0 1).

(** The body of [for pos in screw_positions]. *)
Definition cut_screw (faceplate : Part.Shape) (pos : FreeCAD.Vector) : Part.Shape :=
  let faceplate := Part.cut faceplate (screw_hole pos) in
  Part.cut faceplate (countersink pos).

(** *** BILRESA pockets (lines 135-183) *)

Definition bilresa_y_pos : float := -12.0.

Definition total_span : float :=
  BILRESA_SPACING G * float_of_int (NUM_BILRESA G - 1).

Definition start_x : float := - total_span / 2.

Definition bilresa_positions : list FreeCAD.Vector :=
  map (fun i =>
         let x := start_x + (float_of_int i * BILRESA_SPACING G) in
         Vector x bilresa_y_pos 0)
      (range (NUM_BILRESA G)).

Definition pocket_width : float := BILRESA_WIDTH G + BILRESA_CLEARANCE G.
Definition pocket_length : float := BILRESA_LENGTH G + BILRESA_CLEARANCE G.
Definition pocket_corner_radius : float :=
  BILRESA_CORNER_RADIUS G + BILRESA_CLEARANCE G / 2.

Definition pocket_z_depth : float :=
  FACEPLATE_THICKNESS G - BILRESA_FRONT_WALL G.

Definition pocket_box (pos : FreeCAD.Vector) : Part.Shape :=
  Part.makeBox pocket_width pocket_length pocket_z_depth
    (Vector (FreeCAD.x pos - pocket_width / 2)
            (FreeCAD.y pos - pocket_length / 2) 0).

(** The edge test of lines 171-172 and 359-360: both ends share X and Y. *)
Definition parallel_to_Z (edge : Part.Edge) : bool :=
  PrimFloat.eqb (Part.X (Part.Vertexes0 edge)) (Part.X (Part.Vertexes1 edge))
  && PrimFloat.eqb (Part.Y (Part.Vertexes0 edge)) (Part.Y (Part.Vertexes1 edge)).

Definition edges_to_fillet (box : Part.Shape) : list Part.Edge :=
  filter parallel_to_Z (Part.Edges box).

(** Lines 175-181 and 363-369: fillet if there are edges, the box itself
    when there are none or when [makeFillet] raises. *)
Definition fillet_or_box (box : Part.Shape) (radius : float) : Part.Shape :=
  match edges_to_fillet box with
  | [] => box
  | edges =>
      match Part.makeFillet K box radius edges with
      | Some filleted => filleted
      | None => box
      end
  end.

Definition pocket (pos : FreeCAD.Vector) : Part.Shape :=
  fillet_or_box (pocket_box pos) (pocket_corner_radius - 0.1).

(** The body of [for pos in bilresa_positions] at line 156. *)
Definition cut_pocket (faceplate : Part.Shape) (pos : FreeCAD.Vector) : Part.Shape :=
  Part.cut faceplate (pocket pos).

(** *** LED holes (lines 188-209) *)

Definition led_y_pos : float := 30.0.

Definition led_pos (pos : FreeCAD.Vector) : FreeCAD.Vector :=
  Vector (FreeCAD.x pos) led_y_pos 0.

Definition led_hole (pos : FreeCAD.Vector) : Part.Shape :=
  Part.makeCylinder (LED_HOLE_DIAMETER G / 2) (FACEPLATE_THICKNESS G + 1)
    (led_pos pos +v Vector 0 0 (-0.5)) (Vector 0 0 1).

Definition led_recess (pos : FreeCAD.Vector) : Part.Shape :=
  Part.makeCylinder (LED_HEAD_DIAMETER G / 2) (LED_COUNTERSINK_DEPTH G + 0.1)
    (led_pos pos +v Vector 0 0 (FACEPLATE_THICKNESS G - LED_COUNTERSINK_DEPTH G))
    (Vector 0 0 1).

(** The body of [for i, pos in enumerate(bilresa_positions)] at line 190. *)
Definition cut_led (faceplate : Part.Shape) (ipos : Z * FreeCAD.Vector) : Part.Shape :=
  let pos := snd ipos in
  let faceplate := Part.cut faceplate (led_hole pos) in
  Part.cut faceplate (led_recess pos).

(** *** Shelly cradles (lines 217-329) *)

Definition cradle_internal_width : float := SHELLY_WIDTH G + SHELLY_CLEARANCE G.
Definition cradle_internal_height : float := SHELLY_HEIGHT G + SHELLY_CLEARANCE G.

Definition cradle_external_width : float :=
  cradle_internal_width + (2 * SHELLY_WALL_THICKNESS G).
Definition cradle_external_height : float :=
  cradle_internal_height + SHELLY_SHELF_THICKNESS G.

Definition cradle_depth : float := SHELLY_DEPTH G + SHELLY_SHELF_THICKNESS G.

Definition shelly_y_pos : float :=
  - FACEPLATE_HEIGHT G / 2 + cradle_external_height / 2 + 6.0.

Definition z_back : float := - cradle_depth.

Definition shelf (shelly_x : float) : Part.Shape :=
  Part.makeBox cradle_external_width (SHELLY_SHELF_THICKNESS G) cradle_depth
    (Vector (shelly_x - cradle_external_width / 2)
            (shelly_y_pos - cradle_external_height / 2)
            z_back).

Definition shelf_lip (shelly_x : float) : Part.Shape :=
  Part.makeBox cradle_internal_width (SHELLY_LIP_DEPTH G) (SHELLY_LIP_HEIGHT G)
    (Vector (shelly_x - cradle_internal_width / 2)
            (shelly_y_pos - cradle_external_height / 2 + SHELLY_SHELF_THICKNESS G)
            z_back).

Definition left_guide (shelly_x : float) : Part.Shape :=
  Part.makeBox (SHELLY_WALL_THICKNESS G) cradle_internal_height cradle_depth
    (Vector (shelly_x - cradle_external_width / 2)
            (shelly_y_pos - cradle_external_height / 2 + SHELLY_SHELF_THICKNESS G)
            z_back).

Definition left_lip (shelly_x : float) : Part.Shape :=
  Part.makeBox (SHELLY_LIP_DEPTH G) cradle_internal_height (SHELLY_LIP_HEIGHT G)
    (Vector (shelly_x - cradle_external_width / 2 + SHELLY_WALL_THICKNESS G)
            (shelly_y_pos - cradle_external_height / 2 + SHELLY_SHELF_THICKNESS G)
            z_back).

Definition right_guide (shelly_x : float) : Part.Shape :=
  Part.makeBox (SHELLY_WALL_THICKNESS G) cradle_internal_height cradle_depth
    (Vector (shelly_x + cradle_external_width / 2 - SHELLY_WALL_THICKNESS G)
            (shelly_y_pos - cradle_external_height / 2 + SHELLY_SHELF_THICKNESS G)
            z_back).

Definition right_lip (shelly_x : float) : Part.Shape :=
  Part.makeBox (SHELLY_LIP_DEPTH G) cradle_internal_height (SHELLY_LIP_HEIGHT G)
    (Vector (shelly_x + cradle_external_width / 2 - SHELLY_WALL_THICKNESS G
               - SHELLY_LIP_DEPTH G)
            (shelly_y_pos - cradle_external_height / 2 + SHELLY_SHELF_THICKNESS G)
            z_back).

(** Lines 316-320. *)
Definition cradle (bilresa_pos : FreeCAD.Vector) : Part.Shape :=
  let shelly_x := FreeCAD.x bilresa_pos in
  let cradle := Part.fuse (shelf shelly_x) (shelf_lip shelly_x) in
  let cradle := Part.fuse cradle (left_guide shelly_x) in
  let cradle := Part.fuse cradle (left_lip shelly_x) in
  let cradle := Part.fuse cradle (right_guide shelly_x) in
  Part.fuse cradle (right_lip shelly_x).

(** The body of [for i, bilresa_pos in enumerate(bilresa_positions)] at
    line 235, on the collection [shelly_housings]. *)
Definition add_cradle (shelly_housings : Part.Shape) (ipos : Z * FreeCAD.Vector)
    : Part.Shape :=
  let cradle := cradle (snd ipos) in
  if Part.isNull shelly_housings then cradle
  else Part.fuse shelly_housings cradle.

Definition shelly_housings : Part.Shape :=
  fold_left add_cradle (enumerate bilresa_positions) Part.Null.

(** *** The manufactured solid: the value of [faceplate] at line 329 *)

Definition faceplate_screws : Part.Shape :=
  fold_left cut_screw screw_positions base_box.

Definition faceplate_pockets : Part.Shape :=
  fold_left cut_pocket bilresa_positions faceplate_screws.

Definition faceplate_leds : Part.Shape :=
  fold_left cut_led (enumerate bilresa_positions) faceplate_pockets.

Definition faceplate : Part.Shape :=
  Part.fuse faceplate_leds shelly_housings.

(** *** Reference plates (lines 341-373) *)

Definition plate_z : float := pocket_z_depth - BILRESA_THICKNESS G.

Definition plate_box (pos : FreeCAD.Vector) : Part.Shape :=
  Part.makeBox (BILRESA_WIDTH G) (BILRESA_LENGTH G) (BILRESA_THICKNESS G)
    (Vector (FreeCAD.x pos - BILRESA_WIDTH G / 2)
            (FreeCAD.y pos - BILRESA_LENGTH G / 2)
            plate_z).

Definition plate (pos : FreeCAD.Vector) : Part.Shape :=
  fillet_or_box (plate_box pos) (BILRESA_CORNER_RADIUS G - 0.1).

(** The body of the loop at line 341. *)
Definition add_plate (doc : Document.t) (ipos : Z * FreeCAD.Vector) : Document.t :=
  let (i, pos) := ipos in
  let (doc, plate_obj) :=
    Document.addObject doc "Part::Feature"
      ("BILRESA_Plate_" ++ str_of_int (i + 1))%string in
  let doc := Document.set_Shape doc plate_obj (plate pos) in
  Document.set_Transparency doc plate_obj 50.

(** *** Reference Shelly boxes (lines 378-395) *)

Definition shelly_box (bilresa_pos : FreeCAD.Vector) : Part.Shape :=
  let shelly_x := FreeCAD.x bilresa_pos in
  Part.makeBox (SHELLY_WIDTH G) (SHELLY_HEIGHT G) (SHELLY_DEPTH G)
    (Vector (shelly_x - SHELLY_WIDTH G / 2)
            (shelly_y_pos - cradle_external_height / 2 + SHELLY_SHELF_THICKNESS G
               + SHELLY_CLEARANCE G / 2)
            (- cradle_depth + SHELLY_SHELF_THICKNESS G)).

(** The body of the loop at line 378. *)
Definition add_shelly (doc : Document.t) (ipos : Z * FreeCAD.Vector) : Document.t :=
  let (i, bilresa_pos) := ipos in
  let (doc, shelly_obj) :=
    Document.addObject doc "Part::Feature"
      ("Shelly_" ++ str_of_int (i + 1))%string in
  let doc := Document.set_Shape doc shelly_obj (shelly_box bilresa_pos) in
  let doc := Document.set_Transparency doc shelly_obj 70 in
  Document.set_ShapeColor doc shelly_obj (0.2, 0.4, 0.8).

(** *** The summary (lines 407-420) *)

Definition rule : Line := [Lit (str_repeat "=" 60)].

Definition summary : list Line :=
  [ rule;
    [Lit "Heating Control Faceplate V6 created!"];
    rule;
    [Lit "Faceplate size: "; Flt (FACEPLATE_WIDTH G); Lit " x ";
     Flt (FACEPLATE_HEIGHT G); Lit " x "; Flt (FACEPLATE_THICKNESS G); Lit " mm"];
    [Lit "Screw spacing: "; Flt (SCREW_SPACING G); Lit " mm (centred)"];
    [Lit "BILRESA pockets: "; Int (NUM_BILRESA G); Lit "x VERTICAL (";
     Flt (BILRESA_LENGTH G); Lit "mm x "; Flt (BILRESA_WIDTH G); Lit "mm)"];
    [Lit "  -> Back-accessible: "; Flt pocket_z_depth; Lit "mm deep, ";
     Flt (BILRESA_FRONT_WALL G); Lit "mm front wall"];
    [Lit "  -> Slide plates in from back after printing"];
    [Lit "  -> Position: Y="; Flt bilresa_y_pos; Lit "mm"];
    [Lit "LED holes: "; Int (NUM_BILRESA G); Lit "x ("; Flt (LED_HOLE_DIAMETER G);
     Lit "mm)"];
    [Lit "Shelly housings: "; Int (NUM_BILRESA G);
     Lit "x cradles on back (tighter fit)"];
    [Lit "  -> Shelly size: "; Flt (SHELLY_WIDTH G); Lit " x ";
     Flt (SHELLY_HEIGHT G); Lit " x "; Flt (SHELLY_DEPTH G); Lit " mm"];
    [Lit "  -> Cradle depth: "; Flt cradle_depth; Lit " mm from back surface"];
    rule ].

(** *** The procedure *)

(** The document once the manufactured solid is registered (line 335). *)
Definition doc_with_faceplate : Document.t :=
  let doc := Document.newDocument "HeatingFaceplate" in
  let (doc, faceplate_obj) :=
    Document.addObject doc "Part::Feature" "HeatingFaceplate" in
  Document.set_Shape doc faceplate_obj faceplate.

(** The document returned, and the lines printed.  The two view calls of
    lines 401-405 touch neither. *)
Definition create_faceplate : Document.t * list Line :=
  let doc := doc_with_faceplate in
  let doc := fold_left add_plate (enumerate bilresa_positions) doc in
  let doc := fold_left add_shelly (enumerate bilresa_positions) doc in
  let doc := Document.recompute doc in
  (doc, summary).

End CreateFaceplate.


Arguments create_faceplate G K : assert.

(** ** Reading a shape back *)

(** The tools subtracted from a blank, oldest first. *)
Fixpoint cut_tools (s : Part.Shape) : list Part.Shape :=
  match s with
  | Part.Cut b t => cut_tools b ++ [t]
  | _ => []
  end.

(** The operands of a chain of fuses, first operand first. *)
Fixpoint fuse_operands (s : Part.Shape) : list Part.Shape :=
  match s with
  | Part.Fuse a b => fuse_operands a ++ [b]
  | _ => [s]
  end.

(** The shape a fillet was applied to; any other shape is returned as is. *)
Definition unfilleted (s : Part.Shape) : Part.Shape :=
  match s with
  | Part.Fillet _ _ b => b
  | _ => s
  end.

(** The primitive solids a shape was built from. *)
Fixpoint primitives (s : Part.Shape) : list Part.Shape :=
  match s with
  | Part.Null => []
  | Part.Box _ _ _ _ | Part.Cylinder _ _ _ _ | Part.Cone _ _ _ _ _ => [s]
  | Part.Cut a b | Part.Fuse a b => primitives a ++ primitives b
  | Part.Fillet _ _ b => primitives b
  end.

(** [s] is [t] or an operand, at any depth, of the operations that built [t]. *)
Fixpoint subshape (s t : Part.Shape) : Prop :=
  s = t \/
  match t with
  | Part.Cut a b | Part.Fuse a b => subshape s a \/ subshape s b
  | Part.Fillet _ _ b => subshape s b
  | _ => False
  end.

(** The tools cut by the pocket loop: those added to the screw cuts. *)
Definition pocket_cuts (G : Globals) (K : Part.Kernel) : list Part.Shape :=
  skipn (List.length (cut_tools (faceplate_screws G)))
        (cut_tools (faceplate_pockets G K)).

(** The tools cut by the LED loop: those added to the pocket cuts. *)
Definition led_cuts (G : Globals) (K : Part.Kernel) : list Part.Shape :=
  skipn (List.length (cut_tools (faceplate_pockets G K)))
        (cut_tools (faceplate_leds G K)).

(** Extents of a box along each axis: from its corner to corner plus side. *)
Definition x_range (s : Part.Shape) : option (float * float) :=
  match s with
  | Part.Box l _ _ p => Some (FreeCAD.x p, FreeCAD.x p + l)
  | _ => None
  end.

Definition y_range (s : Part.Shape) : option (float * float) :=
  match s with
  | Part.Box _ w _ p => Some (FreeCAD.y p, FreeCAD.y p + w)
  | _ => None
  end.

Definition z_range (s : Part.Shape) : option (float * float) :=
  match s with
  | Part.Box _ _ h p => Some (FreeCAD.z p, FreeCAD.z p + h)
  | _ => None
  end.

Definition fmin (a b : float) : float := if PrimFloat.ltb b a then b else a.
Definition fmax (a b : float) : float := if PrimFloat.ltb a b then b else a.

Definition join (a b : float * float) : float * float :=
  (fmin (fst a) (fst b), fmax (snd a) (snd b)).

(** The smallest interval covering the ranges of all the boxes of [l]. *)
Definition hull (range_of : Part.Shape -> option (float * float))
    (l : list Part.Shape) : option (float * float) :=
  match flat_map (fun s => match range_of s with Some r => [r] | None => [] end) l with
  | [] => None
  | r :: rs => Some (fold_left join rs r)
  end.

Definition extent (r : option (float * float)) : option float :=
  match r with
  | Some (lo, hi) => Some (hi - lo)
  | None => None
  end.

(** A box that lies in the half space z <= 0, behind the back face. *)
Definition box_behind_back_face (s : Part.Shape) : bool :=
  match z_range s with
  | Some (lo, hi) => PrimFloat.leb lo hi && PrimFloat.leb hi 0
  | None => false
  end.

(** Every x of [xs] has its mirror image -x in [xs] (Python's [==]). *)
Definition symmetric_about_zero (xs : list float) : bool :=
  forallb (fun a => existsb (fun b => PrimFloat.eqb b (- a)) xs) xs.

(** A kernel whose [makeFillet] always raises, and one where it never does. *)
Definition failing_kernel : Part.Kernel :=
  {| Part.fillet_raises := fun _ _ _ => true |}.

Definition sound_kernel : Part.Kernel :=
  {| Part.fillet_raises := fun _ _ _ => false |}.

(** The blank a chain of cuts started from. *)
Fixpoint cut_blank (s : Part.Shape) : Part.Shape :=
  match s with
  | Part.Cut b _ => cut_blank b
  | _ => s
  end.

(** The shape with every fillet replaced by the shape it was applied to. *)
Fixpoint strip_fillets (s : Part.Shape) : Part.Shape :=
  match s with
  | Part.Cut a b => Part.Cut (strip_fillets a) (strip_fillets b)
  | Part.Fuse a b => Part.Fuse (strip_fillets a) (strip_fillets b)
  | Part.Fillet _ _ b => strip_fillets b
  | _ => s
  end.

(** The module with [NUM_BILRESA] rebound to [n] and every other constant as
    in [G]. *)
Definition with_NUM_BILRESA (n : Z) (G : Globals) : Globals := {|
  FACEPLATE_WIDTH := FACEPLATE_WIDTH G;
  FACEPLATE_HEIGHT := FACEPLATE_HEIGHT G;
  FACEPLATE_THICKNESS := FACEPLATE_THICKNESS G;
  SCREW_SPACING := SCREW_SPACING G;
  SCREW_DIAMETER := SCREW_DIAMETER G;
  SCREW_COUNTERSINK_DIAMETER := SCREW_COUNTERSINK_DIAMETER G;
  SCREW_COUNTERSINK_DEPTH := SCREW_COUNTERSINK_DEPTH G;
  BILRESA_LENGTH := BILRESA_LENGTH G;
  BILRESA_WIDTH := BILRESA_WIDTH G;
  BILRESA_THICKNESS := BILRESA_THICKNESS G;
  BILRESA_CORNER_RADIUS := BILRESA_CORNER_RADIUS G;
  NUM_BILRESA := n;
  BILRESA_SPACING := BILRESA_SPACING G;
  LED_HOLE_DIAMETER := LED_HOLE_DIAMETER G;
  LED_HEAD_DIAMETER := LED_HEAD_DIAMETER G;
  LED_COUNTERSINK_DEPTH := LED_COUNTERSINK_DEPTH G;
  BILRESA_FRONT_WALL := BILRESA_FRONT_WALL G;
  BILRESA_POCKET_DEPTH := BILRESA_POCKET_DEPTH G;
  BILRESA_CLEARANCE := BILRESA_CLEARANCE G;
  SHELLY_WIDTH := SHELLY_WIDTH G;
  SHELLY_HEIGHT := SHELLY_HEIGHT G;
  SHELLY_DEPTH := SHELLY_DEPTH G;
  SHELLY_WALL_THICKNESS := SHELLY_WALL_THICKNESS G;
  SHELLY_LIP_HEIGHT := SHELLY_LIP_HEIGHT G;
  SHELLY_LIP_DEPTH := SHELLY_LIP_DEPTH G;
  SHELLY_CLEARANCE := SHELLY_CLEARANCE G;
  SHELLY_SHELF_THICKNESS := SHELLY_SHELF_THICKNESS G
|}.

(** *** Plan view *)

(** An axis-parallel rectangle of the XY plane. *)
Record Rect : Type := mkRect {
  x_lo : float; x_hi : float; y_lo : float; y_hi : float
}.

Definition along_Z (dir : FreeCAD.Vector) : bool :=
  PrimFloat.eqb (FreeCAD.x dir) 0 && PrimFloat.eqb (FreeCAD.y dir) 0.

(** The rectangle that bounds, seen along Z, a box, a cylinder or cone whose
    axis is parallel to Z, or a fillet of one of these. *)
Fixpoint footprint (s : Part.Shape) : option Rect :=
  match s with
  | Part.Box l w _ p =>
      Some (mkRect (FreeCAD.x p) (FreeCAD.x p + l) (FreeCAD.y p) (FreeCAD.y p + w))
  | Part.Cylinder r _ p d =>
      if along_Z d
      then Some (mkRect (FreeCAD.x p - r) (FreeCAD.x p + r)
                        (FreeCAD.y p - r) (FreeCAD.y p + r))
      else None
  | Part.Cone r1 r2 _ p d =>
      if along_Z d
      then let r := fmax r1 r2 in
           Some (mkRect (FreeCAD.x p - r) (FreeCAD.x p + r)
                        (FreeCAD.y p - r) (FreeCAD.y p + r))
      else None
  | Part.Fillet _ _ b => footprint b
  | _ => None
  end.

(** All the footprints of a list of shapes, or [None] if one has none. *)
Fixpoint footprints (l : list Part.Shape) : option (list Rect) :=
  match l with
  | [] => Some []
  | s :: l' =>
      match footprint s, footprints l' with
      | Some r, Some rs => Some (r :: rs)
      | _, _ => None
      end
  end.

(** The two rectangles are apart: one lies strictly left of, right of, below
    or above the other. *)
Definition rect_disjoint (a b : Rect) : bool :=
  PrimFloat.ltb (x_hi a) (x_lo b) || PrimFloat.ltb (x_hi b) (x_lo a)
  || PrimFloat.ltb (y_hi a) (y_lo b) || PrimFloat.ltb (y_hi b) (y_lo a).

(** [a] lies strictly inside [b]. *)
Definition rect_inside (a b : Rect) : bool :=
  PrimFloat.ltb (x_lo b) (x_lo a) && PrimFloat.ltb (x_hi a) (x_hi b)
  && PrimFloat.ltb (y_lo b) (y_lo a) && PrimFloat.ltb (y_hi a) (y_hi b).

(** [a] lies inside [b], borders allowed to touch. *)
Definition rect_within (a b : Rect) : bool :=
  PrimFloat.leb (x_lo b) (x_lo a) && PrimFloat.leb (x_hi a) (x_hi b)
  && PrimFloat.leb (y_lo b) (y_lo a) && PrimFloat.leb (y_hi a) (y_hi b).

Fixpoint pairwise_disjoint (l : list Rect) : bool :=
  match l with
  | [] => true
  | r :: l' => forallb (rect_disjoint r) l' && pairwise_disjoint l'
  end.

Definition rect_join (a b : Rect) : Rect :=
  mkRect (fmin (x_lo a) (x_lo b)) (fmax (x_hi a) (x_hi b))
         (fmin (y_lo a) (y_lo b)) (fmax (y_hi a) (y_hi b)).

(** The smallest rectangle around all those of [l]. *)
Definition bounding (l : list Rect) : option Rect :=
  match l with
  | [] => None
  | r :: rs => Some (fold_left rect_join rs r)
  end.

(** The rectangle around the parts of the cradle at [pos]. *)
Definition cradle_footprint (G : Globals) (pos : FreeCAD.Vector) : option Rect :=
  match footprints (fuse_operands (cradle G pos)) with
  | Some rs => bounding rs
  | None => None
  end.

(** The six boxes of the cradle at [pos], in the order they are fused. *)
Definition cradle_boxes (G : Globals) (pos : FreeCAD.Vector) : list Part.Shape :=
  let x := FreeCAD.x pos in
  [shelf G x; shelf_lip G x; left_guide G x; left_lip G x;
   right_guide G x; right_lip G x].

(** The four edges of a box that run parallel to Z, in the order of
    [Part.Edges]. *)
Definition vertical_edges (l w h : float) (p : FreeCAD.Vector) : list Part.Edge :=
  let x0 := FreeCAD.x p in let x1 := FreeCAD.x p + l in
  let y0 := FreeCAD.y p in let y1 := FreeCAD.y p + w in
  let z0 := FreeCAD.z p in let z1 := FreeCAD.z p + h in
  let v := Part.mkVertex in
  [ Part.mkEdge (v x0 y0 z0) (v x0 y0 z1); Part.mkEdge (v x1 y0 z0) (v x1 y0 z1);
    Part.mkEdge (v x1 y1 z0) (v x1 y1 z1); Part.mkEdge (v x0 y1 z0) (v x0 y1 z1) ].

(** The document objects the two reference loops register for position
    number [i] at [pos]. *)
Definition plate_object (G : Globals) (K : Part.Kernel) (ipos : Z * FreeCAD.Vector)
    : Document.DocumentObject :=
  Document.mkObject "Part::Feature"
    ("BILRESA_Plate_" ++ str_of_int (fst ipos + 1))%string
    (plate G K (snd ipos)) (Document.mkViewObject 50 None).

Definition shelly_object (G : Globals) (ipos : Z * FreeCAD.Vector)
    : Document.DocumentObject :=
  Document.mkObject "Part::Feature"
    ("Shelly_" ++ str_of_int (fst ipos + 1))%string
    (shelly_box G (snd ipos))
    (Document.mkViewObject 70 (Some (0.2, 0.4, 0.8))).

(** ** Structure of the cut chain *)

Lemma skipn_length_app {A : Type} (l l' : list A) :
  skipn (List.length l) (l ++ l') = l'.
Proof. induction l as [|a l IH]; simpl; auto. Qed.

Lemma cut_tools_screws (G : Globals) (ps : list FreeCAD.Vector) (s : Part.Shape) :
  cut_tools (fold_left (cut_screw G) ps s)
  = cut_tools s ++ flat_map (fun p => [screw_hole G p; countersink G p]) ps.
Proof.
  revert s. induction ps as [|p ps IH]; intros s; simpl.
  - now rewrite app_nil_r.
  - rewrite IH. simpl. now rewrite <- !app_assoc.
Qed.

Lemma cut_tools_pockets (G : Globals) (K : Part.Kernel)
    (ps : list FreeCAD.Vector) (s : Part.Shape) :
  cut_tools (fold_left (cut_pocket G K) ps s) = cut_tools s ++ map (pocket G K) ps.
Proof.
  revert s. induction ps as [|p ps IH]; intros s; simpl.
  - now rewrite app_nil_r.
  - rewrite IH. simpl. now rewrite <- app_assoc.
Qed.

Lemma cut_tools_leds (G : Globals) (ips : list (Z * FreeCAD.Vector)) (s : Part.Shape) :
  cut_tools (fold_left (cut_led G) ips s)
  = cut_tools s
    ++ flat_map (fun ip => [led_hole G (snd ip); led_recess G (snd ip)]) ips.
Proof.
  revert s. induction ips as [|ip ips IH]; intros s; simpl.
  - now rewrite app_nil_r.
  - rewrite IH. simpl. now rewrite <- !app_assoc.
Qed.

Lemma pocket_cuts_eq (G : Globals) (K : Part.Kernel) :
  pocket_cuts G K = map (pocket G K) (bilresa_positions G).
Proof.
  unfold pocket_cuts, faceplate_pockets.
  rewrite cut_tools_pockets. apply skipn_length_app.
Qed.

Lemma led_cuts_eq (G : Globals) (K : Part.Kernel) :
  led_cuts G K
  = flat_map (fun ip => [led_hole G (snd ip); led_recess G (snd ip)])
      (enumerate (bilresa_positions G)).
Proof.
  unfold led_cuts, faceplate_leds.
  rewrite cut_tools_leds. apply skipn_length_app.
Qed.

(** ** The guarded fillet *)

Lemma fillet_or_box_cases (K : Part.Kernel) (box : Part.Shape) (r : float) :
  fillet_or_box K box r = box
  \/ fillet_or_box K box r = Part.Fillet r (edges_to_fillet box) box.
Proof.
  unfold fillet_or_box, Part.makeFillet.
  destruct (edges_to_fillet box) as [|e es]; [now left|].
  destruct (Part.fillet_raises K r (e :: es) box); [now left | now right].
Qed.

Lemma fillet_or_box_raises (K : Part.Kernel) (box : Part.Shape) (r : float) :
  Part.fillet_raises K r (edges_to_fillet box) box = true ->
  fillet_or_box K box r = box.
Proof.
  intros H. unfold fillet_or_box, Part.makeFillet.
  destruct (edges_to_fillet box) as [|e es]; [reflexivity|].
  now rewrite H.
Qed.

Lemma unfilleted_fillet_or_box (K : Part.Kernel) (l w h r : float) (p : FreeCAD.Vector) :
  unfilleted (fillet_or_box K (Part.Box l w h p) r) = Part.Box l w h p.
Proof.
  destruct (fillet_or_box_cases K (Part.Box l w h p) r) as [E|E]; now rewrite E.
Qed.

Lemma primitives_fillet_or_box (K : Part.Kernel) (box : Part.Shape) (r : float) :
  primitives (fillet_or_box K box r) = primitives box.
Proof.
  destruct (fillet_or_box_cases K box r) as [E|E]; now rewrite E.
Qed.

(** ** The layout with the constants of the file *)

Lemma bilresa_positions_defaults :
  bilresa_positions defaults
  = [Vector (-40) (-12) 0; Vector 0 (-12) 0; Vector 40 (-12) 0].
Proof. vm_compute. reflexivity. Qed.

Lemma enumerate_positions_defaults :
  enumerate (bilresa_positions defaults)
  = [(0%Z, Vector (-40) (-12) 0); (1%Z, Vector 0 (-12) 0); (2%Z, Vector 40 (-12) 0)].
Proof. vm_compute. reflexivity. Qed.

(** C1.  Each of the NUM_BILRESA pockets cut from the faceplate is (a fillet
    of) a box whose corner lies on the back face z = 0 and whose height is
    [pocket_z_depth]; that depth plus BILRESA_FRONT_WALL is
    FACEPLATE_THICKNESS, so the material left in front of the pocket,
    FACEPLATE_THICKNESS minus the top of the box, is BILRESA_FRONT_WALL. *)
Theorem pocket_depth_plus_front_wall (K : Part.Kernel) (i : nat) :
  (Z.of_nat i < NUM_BILRESA defaults)%Z ->
  exists s w l p,
    nth_error (pocket_cuts defaults K) i = Some s
    /\ unfilleted s = Part.Box w l (pocket_z_depth defaults) p
    /\ FreeCAD.z p = 0
    /\ pocket_z_depth defaults + BILRESA_FRONT_WALL defaults
       = FACEPLATE_THICKNESS defaults
    /\ FACEPLATE_THICKNESS defaults - (FreeCAD.z p + pocket_z_depth defaults)
       = BILRESA_FRONT_WALL defaults.
Proof.
  intros Hi. rewrite pocket_cuts_eq, bilresa_positions_defaults.
  assert (Hc : (i = 0 \/ i = 1 \/ i = 2)%nat) by (cbn in Hi; lia).
  destruct Hc as [-> | [-> | ->]]; cbn [map nth_error];
    (eexists; eexists; eexists; eexists; split; [reflexivity|];
     unfold pocket, pocket_box; rewrite unfilleted_fillet_or_box;
     split; [reflexivity|]; repeat split; vm_compute; reflexivity).
Qed.

Lemma pocket_depth_plus_front_wall_witness :
  exists s w l p,
    nth_error (pocket_cuts defaults sound_kernel) 2 = Some s
    /\ unfilleted s = Part.Box w l (pocket_z_depth defaults) p
    /\ FreeCAD.z p = 0
    /\ pocket_z_depth defaults + BILRESA_FRONT_WALL defaults
       = FACEPLATE_THICKNESS defaults
    /\ FACEPLATE_THICKNESS defaults - (FreeCAD.z p + pocket_z_depth defaults)
       = BILRESA_FRONT_WALL defaults.
Proof.
  apply (pocket_depth_plus_front_wall sound_kernel 2). vm_compute. reflexivity.
Defined.

(** C2.  With the constants of the file there are NUM_BILRESA pocket centres;
    the first is at x = -BILRESA_SPACING*(NUM_BILRESA-1)/2; the X coordinates
    of consecutive centres differ by BILRESA_SPACING; the X coordinates are
    symmetric about x = 0; and the i-th pocket box is centred in X on the
    i-th centre. *)
Theorem pocket_centres_spacing_symmetric :
  let xs := map FreeCAD.x (bilresa_positions defaults) in
  (Z.of_nat (List.length xs) = NUM_BILRESA defaults
   /\ nth_error xs 0
      = Some (- BILRESA_SPACING defaults
                * float_of_int (NUM_BILRESA defaults - 1) / 2)
   /\ symmetric_about_zero xs = true)
  /\ forall i a, nth_error xs i = Some a ->
       (forall b, nth_error xs (S i) = Some b ->
                  b - a = BILRESA_SPACING defaults)
       /\ (exists b, In b xs /\ PrimFloat.eqb b (- a) = true)
       /\ (forall K, exists s w l h p,
             nth_error (pocket_cuts defaults K) i = Some s
             /\ unfilleted s = Part.Box w l h p
             /\ FreeCAD.x p + w / 2 = a).
Proof.
  cbv zeta. split; [repeat split; vm_compute; reflexivity|].
  intros i a Ha. rewrite bilresa_positions_defaults in Ha |- *.
  assert (Hpock : forall K pos,
            exists w l h p,
              unfilleted (pocket defaults K pos) = Part.Box w l h p
              /\ FreeCAD.x p + w / 2 = FreeCAD.x pos - pocket_width defaults / 2
                                        + pocket_width defaults / 2).
  { intros K pos. unfold pocket, pocket_box. rewrite unfilleted_fillet_or_box.
    eexists _, _, _, _. split; reflexivity. }
  destruct i as [|[|[|i]]]; cbn in Ha; try (destruct i; discriminate Ha);
    injection Ha as <-; (split; [|split]).
  all: try (intros b Hb; cbn in Hb; injection Hb as <-; vm_compute; reflexivity).
  all: try (intros b Hb; cbn in Hb; discriminate Hb).
  - exists 40. split; [cbn; tauto | vm_compute; reflexivity].
  - intros K. rewrite pocket_cuts_eq, bilresa_positions_defaults. cbn [map nth_error].
    destruct (Hpock K (Vector (-40) (-12) 0)) as (w & l & h & p & E1 & E2).
    exists (pocket defaults K (Vector (-40) (-12) 0)), w, l, h, p.
    repeat split; [exact E1 | rewrite E2; vm_compute; reflexivity].
  - exists 0. split; [cbn; tauto | vm_compute; reflexivity].
  - intros K. rewrite pocket_cuts_eq, bilresa_positions_defaults. cbn [map nth_error].
    destruct (Hpock K (Vector 0 (-12) 0)) as (w & l & h & p & E1 & E2).
    exists (pocket defaults K (Vector 0 (-12) 0)), w, l, h, p.
    repeat split; [exact E1 | rewrite E2; vm_compute; reflexivity].
  - exists (-40). split; [cbn; tauto | vm_compute; reflexivity].
  - intros K. rewrite pocket_cuts_eq, bilresa_positions_defaults. cbn [map nth_error].
    destruct (Hpock K (Vector 40 (-12) 0)) as (w & l & h & p & E1 & E2).
    exists (pocket defaults K (Vector 40 (-12) 0)), w, l, h, p.
    repeat split; [exact E1 | rewrite E2; vm_compute; reflexivity].
Qed.

Lemma pocket_centres_spacing_symmetric_witness :
  nth_error (map FreeCAD.x (bilresa_positions defaults)) 1 = Some 0
  /\ nth_error (map FreeCAD.x (bilresa_positions defaults)) 2 = Some 40
  /\ 40 - 0 = BILRESA_SPACING defaults.
Proof.
  split; [vm_compute; reflexivity|]. split; [vm_compute; reflexivity|].
  apply (proj1 (proj2 pocket_centres_spacing_symmetric 1%nat 0 eq_refl) 40).
  vm_compute. reflexivity.
Defined.

(** C3.  The four screw cuts are, for x = -SCREW_SPACING/2 and then
    x = +SCREW_SPACING/2, a cylinder of radius SCREW_DIAMETER/2 on the axis
    (x, 0) that runs through the whole thickness, and a cone on the same axis
    along +Z, of radii SCREW_DIAMETER/2 and SCREW_COUNTERSINK_DIAMETER/2, that
    starts at z = FACEPLATE_THICKNESS - SCREW_COUNTERSINK_DEPTH and ends, at
    its wide end, on the front face z = FACEPLATE_THICKNESS.  The two axes are
    SCREW_SPACING apart and mirror images about x = 0. *)
Theorem screw_holes_geometry :
  let G := defaults in
  let r := SCREW_DIAMETER G / 2 in
  let R := SCREW_COUNTERSINK_DIAMETER G / 2 in
  let z0 := FACEPLATE_THICKNESS G - SCREW_COUNTERSINK_DEPTH G in
  let axis := Vector 0 0 1 in
  cut_tools (faceplate_screws G)
  = [ Part.Cylinder r (FACEPLATE_THICKNESS G + 1)
        (Vector (- SCREW_SPACING G / 2) 0 (-0.5)) axis;
      Part.Cone r R (SCREW_COUNTERSINK_DEPTH G)
        (Vector (- SCREW_SPACING G / 2) 0 z0) axis;
      Part.Cylinder r (FACEPLATE_THICKNESS G + 1)
        (Vector (SCREW_SPACING G / 2) 0 (-0.5)) axis;
      Part.Cone r R (SCREW_COUNTERSINK_DEPTH G)
        (Vector (SCREW_SPACING G / 2) 0 z0) axis ]
  /\ SCREW_SPACING G / 2 - (- SCREW_SPACING G / 2) = SCREW_SPACING G
  /\ - (SCREW_SPACING G / 2) = - SCREW_SPACING G / 2
  /\ z0 + SCREW_COUNTERSINK_DEPTH G = FACEPLATE_THICKNESS G
  /\ PrimFloat.ltb r R = true
  /\ PrimFloat.leb (-0.5) 0 = true
  /\ PrimFloat.leb (FACEPLATE_THICKNESS G) (-0.5 + (FACEPLATE_THICKNESS G + 1)) = true.
Proof. cbv zeta. repeat split; vm_compute; reflexivity. Qed.

(** C4.  For each i, the LED loop cuts two cylinders along +Z on the axis
    (x_i, led_y_pos), x_i being the X coordinate of the i-th pocket centre
    and led_y_pos = 30.0: a hole of radius LED_HOLE_DIAMETER/2 through the
    whole thickness, and a recess of radius LED_HEAD_DIAMETER/2 that starts
    LED_COUNTERSINK_DEPTH behind the front face and reaches past it.  Both
    depend on the pocket position through its X coordinate only. *)
Theorem led_holes_follow_pocket_x (K : Part.Kernel) (i : nat) (pos : FreeCAD.Vector) :
  nth_error (bilresa_positions defaults) i = Some pos ->
  let G := defaults in
  let z0 := FACEPLATE_THICKNESS G - LED_COUNTERSINK_DEPTH G in
  nth_error (led_cuts G K) (2 * i)
  = Some (Part.Cylinder (LED_HOLE_DIAMETER G / 2) (FACEPLATE_THICKNESS G + 1)
            (Vector (FreeCAD.x pos) 30.0 (-0.5)) (Vector 0 0 1))
  /\ nth_error (led_cuts G K) (2 * i + 1)
     = Some (Part.Cylinder (LED_HEAD_DIAMETER G / 2) (LED_COUNTERSINK_DEPTH G + 0.1)
               (Vector (FreeCAD.x pos) 30.0 z0) (Vector 0 0 1))
  /\ FACEPLATE_THICKNESS G - z0 = LED_COUNTERSINK_DEPTH G
  /\ PrimFloat.leb (FACEPLATE_THICKNESS G) (z0 + (LED_COUNTERSINK_DEPTH G + 0.1)) = true
  /\ PrimFloat.leb (FACEPLATE_THICKNESS G) (-0.5 + (FACEPLATE_THICKNESS G + 1)) = true
  /\ PrimFloat.ltb (LED_HOLE_DIAMETER G / 2) (LED_HEAD_DIAMETER G / 2) = true
  /\ led_y_pos = 30.0
  /\ (forall y' z', led_hole G (Vector (FreeCAD.x pos) y' z') = led_hole G pos
                    /\ led_recess G (Vector (FreeCAD.x pos) y' z') = led_recess G pos).
Proof.
  intros Hpos. cbv zeta. rewrite led_cuts_eq, enumerate_positions_defaults.
  rewrite bilresa_positions_defaults in Hpos.
  destruct i as [|[|[|i]]]; cbn in Hpos; try (destruct i; discriminate Hpos);
    injection Hpos as <-;
    (repeat split; try (vm_compute; reflexivity)).
Qed.

Lemma led_holes_follow_pocket_x_witness :
  nth_error (led_cuts defaults failing_kernel) 4
  = Some (Part.Cylinder (LED_HOLE_DIAMETER defaults / 2)
            (FACEPLATE_THICKNESS defaults + 1)
            (Vector 40 30.0 (-0.5)) (Vector 0 0 1)).
Proof.
  apply (led_holes_follow_pocket_x failing_kernel 2 (Vector 40 (-12) 0)).
  vm_compute. reflexivity.
Defined.

(** ** Cradles *)

Lemma fold_fuse_not_null (G : Globals) (ips : list (Z * FreeCAD.Vector)) (s : Part.Shape) :
  Part.isNull s = false ->
  fold_left (add_cradle G) ips s
  = fold_left (fun acc ip => Part.Fuse acc (cradle G (snd ip))) ips s.
Proof.
  revert s. induction ips as [|ip ips IH]; intros s Hs; simpl; [reflexivity|].
  unfold add_cradle at 2. rewrite Hs. now apply IH.
Qed.

(** The first cradle replaces the empty collection; every later one is fused
    onto what has been collected. *)
Lemma shelly_housings_cons (G : Globals) (ip : Z * FreeCAD.Vector)
    (ips : list (Z * FreeCAD.Vector)) :
  fold_left (add_cradle G) (ip :: ips) Part.Null
  = fold_left (fun acc ip' => Part.Fuse acc (cradle G (snd ip'))) ips
      (cradle G (snd ip)).
Proof. simpl. now apply fold_fuse_not_null. Qed.

(** C5.  A cradle is the fuse of six boxes: shelf, shelf lip, left guide,
    left lip, right guide, right lip, each of them within z <= 0.  With the
    constants of the file the three cradles are fused with each other, first
    to last, and the result is fused onto the faceplate after all the cuts. *)
Theorem cradles_six_boxes_fused (K : Part.Kernel) :
  let G := defaults in
  (forall pos,
     let x := FreeCAD.x pos in
     cradle G pos
     = Part.Fuse (Part.Fuse (Part.Fuse (Part.Fuse (Part.Fuse
         (shelf G x) (shelf_lip G x)) (left_guide G x)) (left_lip G x))
         (right_guide G x)) (right_lip G x)
     /\ fuse_operands (cradle G pos)
        = [shelf G x; shelf_lip G x; left_guide G x; left_lip G x;
           right_guide G x; right_lip G x]
     /\ forallb box_behind_back_face (fuse_operands (cradle G pos)) = true)
  /\ (exists p0 p1 p2,
        bilresa_positions G = [p0; p1; p2]
        /\ shelly_housings G
           = Part.Fuse (Part.Fuse (cradle G p0) (cradle G p1)) (cradle G p2))
  /\ faceplate G K = Part.Fuse (faceplate_leds G K) (shelly_housings G).
Proof.
  cbv zeta. split; [|split].
  - intros pos. split; [reflexivity|]. split; [reflexivity|].
    vm_compute. reflexivity.
  - eexists _, _, _. split; [apply bilresa_positions_defaults|].
    unfold shelly_housings. rewrite enumerate_positions_defaults.
    rewrite shelly_housings_cons. reflexivity.
  - reflexivity.
Qed.

(** C6.  For any constants the cradle's external width is the internal width
    SHELLY_WIDTH + SHELLY_CLEARANCE plus twice SHELLY_WALL_THICKNESS, and its
    external height is SHELLY_HEIGHT + SHELLY_CLEARANCE plus
    SHELLY_SHELF_THICKNESS.  With the constants of the file, the clearance
    being -0.75, they are 38.25 and 30.25, and each cradle built measures
    just that across the six boxes, in X and in Y, with the internal width
    left between the two guides. *)
Theorem cradle_external_dimensions :
  (forall G,
     cradle_external_width G
     = (SHELLY_WIDTH G + SHELLY_CLEARANCE G) + 2 * SHELLY_WALL_THICKNESS G
     /\ cradle_external_height G
        = (SHELLY_HEIGHT G + SHELLY_CLEARANCE G) + SHELLY_SHELF_THICKNESS G
     /\ cradle_internal_width G = SHELLY_WIDTH G + SHELLY_CLEARANCE G
     /\ cradle_internal_height G = SHELLY_HEIGHT G + SHELLY_CLEARANCE G)
  /\ (SHELLY_CLEARANCE defaults = -0.75
      /\ cradle_external_width defaults = 38.25
      /\ cradle_external_height defaults = 30.25)
  /\ forall pos, In pos (bilresa_positions defaults) ->
       let parts := fuse_operands (cradle defaults pos) in
       let x := FreeCAD.x pos in
       extent (hull x_range parts) = Some (cradle_external_width defaults)
       /\ extent (hull y_range parts) = Some (cradle_external_height defaults)
       /\ extent (hull y_range [left_guide defaults x; right_guide defaults x])
          = Some (cradle_internal_height defaults)
       /\ (exists a b lo hi,
             x_range (left_guide defaults x) = Some (lo, a)
             /\ x_range (right_guide defaults x) = Some (b, hi)
             /\ b - a = cradle_internal_width defaults).
Proof.
  split; [intros G; repeat split|]. split; [repeat split|].
  intros pos Hpos. rewrite bilresa_positions_defaults in Hpos. cbn in Hpos.
  destruct Hpos as [<- | [<- | [<- | []]]]; cbv zeta;
    (split; [vm_compute; reflexivity|]; split; [vm_compute; reflexivity|];
     split; [vm_compute; reflexivity|];
     eexists _, _, _, _; split; [reflexivity|]; split; [reflexivity|];
     vm_compute; reflexivity).
Qed.

Lemma cradle_external_dimensions_witness :
  extent (hull x_range (fuse_operands (cradle defaults (Vector 40 (-12) 0))))
  = Some (cradle_external_width defaults).
Proof.
  apply (proj2 (proj2 cradle_external_dimensions) (Vector 40 (-12) 0)).
  vm_compute. right. right. left. reflexivity.
Defined.

(** ** The document: what later statements leave alone *)

Lemma update_length {A : Type} (l : list A) (i : nat) (f : A -> A) :
  List.length (Document.update l i f) = List.length l.
Proof.
  revert i. induction l as [|a l IH]; intros [|i]; simpl; auto.
Qed.

Lemma nth_error_update_other {A : Type} (l : list A) (i j : nat) (f : A -> A) :
  i <> j -> nth_error (Document.update l i f) j = nth_error l j.
Proof.
  revert i j. induction l as [|a l IH]; intros [|i] [|j] H; simpl;
    try reflexivity; try (exfalso; now apply H).
  apply IH. intros E. apply H. now f_equal.
Qed.

Lemma object_modify_other (doc : Document.t) (h i : nat)
    (f : Document.DocumentObject -> Document.DocumentObject) :
  h <> i -> Document.object (Document.modify doc h f) i = Document.object doc i.
Proof. intros H. unfold Document.object, Document.modify. simpl. now apply nth_error_update_other. Qed.

Lemma length_modify (doc : Document.t) (h : nat)
    (f : Document.DocumentObject -> Document.DocumentObject) :
  List.length (Document.Objects (Document.modify doc h f))
  = List.length (Document.Objects doc).
Proof. unfold Document.modify. simpl. apply update_length. Qed.

Lemma object_addObject_old (doc : Document.t) (type name : string) (i : nat) :
  (i < List.length (Document.Objects doc))%nat ->
  Document.object (fst (Document.addObject doc type name)) i = Document.object doc i.
Proof. intros H. unfold Document.object, Document.addObject. simpl. now apply nth_error_app1. Qed.

Lemma length_addObject (doc : Document.t) (type name : string) :
  List.length (Document.Objects (fst (Document.addObject doc type name)))
  = S (List.length (Document.Objects doc)).
Proof. unfold Document.addObject. simpl. rewrite length_app. simpl. lia. Qed.

Lemma add_plate_frame (G : Globals) (K : Part.Kernel) (doc : Document.t)
    (ip : Z * FreeCAD.Vector) :
  List.length (Document.Objects (add_plate G K doc ip))
  = S (List.length (Document.Objects doc))
  /\ forall i, (i < List.length (Document.Objects doc))%nat ->
       Document.object (add_plate G K doc ip) i = Document.object doc i.
Proof.
  destruct ip as [n pos]. unfold add_plate.
  change (Document.addObject doc "Part::Feature"
            ("BILRESA_Plate_" ++ str_of_int (n + 1))%string)
    with (fst (Document.addObject doc "Part::Feature"
                 ("BILRESA_Plate_" ++ str_of_int (n + 1))%string),
          List.length (Document.Objects doc)).
  unfold Document.set_Transparency, Document.set_Shape. split.
  - now rewrite !length_modify, length_addObject.
  - intros i Hi. rewrite !object_modify_other by lia.
    now apply object_addObject_old.
Qed.

Lemma add_shelly_frame (G : Globals) (doc : Document.t) (ip : Z * FreeCAD.Vector) :
  List.length (Document.Objects (add_shelly G doc ip))
  = S (List.length (Document.Objects doc))
  /\ forall i, (i < List.length (Document.Objects doc))%nat ->
       Document.object (add_shelly G doc ip) i = Document.object doc i.
Proof.
  destruct ip as [n pos]. unfold add_shelly.
  change (Document.addObject doc "Part::Feature"
            ("Shelly_" ++ str_of_int (n + 1))%string)
    with (fst (Document.addObject doc "Part::Feature"
                 ("Shelly_" ++ str_of_int (n + 1))%string),
          List.length (Document.Objects doc)).
  unfold Document.set_ShapeColor, Document.set_Transparency, Document.set_Shape.
  split.
  - now rewrite !length_modify, length_addObject.
  - intros i Hi. rewrite !object_modify_other by lia.
    now apply object_addObject_old.
Qed.

(** A loop whose body only appends one object and edits it leaves every
    object that was there before as it was. *)
Lemma fold_frame {A : Type} (step : Document.t -> A -> Document.t) :
  (forall doc a,
     List.length (Document.Objects (step doc a))
     = S (List.length (Document.Objects doc))
     /\ forall i, (i < List.length (Document.Objects doc))%nat ->
          Document.object (step doc a) i = Document.object doc i) ->
  forall (l : list A) (doc : Document.t),
    List.length (Document.Objects (fold_left step l doc))
    = (List.length l + List.length (Document.Objects doc))%nat
    /\ forall i, (i < List.length (Document.Objects doc))%nat ->
         Document.object (fold_left step l doc) i = Document.object doc i.
Proof.
  intros Hstep l. induction l as [|a l IH]; intros doc; simpl.
  - split; auto.
  - destruct (Hstep doc a) as [Hlen Hold].
    destruct (IH (step doc a)) as [IHlen IHold]. split.
    + rewrite IHlen, Hlen. lia.
    + intros i Hi. rewrite IHold by lia. now apply Hold.
Qed.

Lemma enumerate_length {A : Type} (l : list A) :
  List.length (enumerate l) = List.length l.
Proof.
  unfold enumerate, range. rewrite length_combine, length_map, length_seq.
  rewrite Nat2Z.id. apply Nat.min_id.
Qed.

(** ** Shapes inside shapes *)

Lemma subshape_primitives (s t : Part.Shape) :
  subshape s t -> incl (primitives s) (primitives t).
Proof.
  induction t as [| | | |a IHa b IHb|a IHa b IHb|r es b IHb]; simpl;
    intros [-> | H]; try apply incl_refl; try contradiction.
  - destruct H as [H|H]; [apply incl_appl | apply incl_appr]; auto.
  - destruct H as [H|H]; [apply incl_appl | apply incl_appr]; auto.
  - auto.
Qed.

Lemma primitives_screws (G : Globals) (ps : list FreeCAD.Vector) (s : Part.Shape) :
  primitives (fold_left (cut_screw G) ps s)
  = primitives s ++ flat_map (fun p => [screw_hole G p; countersink G p]) ps.
Proof.
  revert s. induction ps as [|p ps IH]; intros s; simpl.
  - now rewrite app_nil_r.
  - rewrite IH. simpl. now rewrite <- !app_assoc.
Qed.

Lemma primitives_pockets (G : Globals) (K : Part.Kernel)
    (ps : list FreeCAD.Vector) (s : Part.Shape) :
  primitives (fold_left (cut_pocket G K) ps s)
  = primitives s ++ map (pocket_box G) ps.
Proof.
  revert s. induction ps as [|p ps IH]; intros s; simpl.
  - now rewrite app_nil_r.
  - rewrite IH. simpl. unfold pocket. rewrite primitives_fillet_or_box.
    simpl. now rewrite <- app_assoc.
Qed.

Lemma primitives_leds (G : Globals) (ips : list (Z * FreeCAD.Vector)) (s : Part.Shape) :
  primitives (fold_left (cut_led G) ips s)
  = primitives s
    ++ flat_map (fun ip => [led_hole G (snd ip); led_recess G (snd ip)]) ips.
Proof.
  revert s. induction ips as [|ip ips IH]; intros s; simpl.
  - now rewrite app_nil_r.
  - rewrite IH. simpl. now rewrite <- !app_assoc.
Qed.

(** The primitives of the manufactured solid do not depend on which fillets
    the kernel accepted. *)
Lemma primitives_faceplate (G : Globals) (K : Part.Kernel) :
  primitives (faceplate G K) = primitives (faceplate G failing_kernel).
Proof.
  unfold faceplate, faceplate_leds, faceplate_pockets. simpl.
  now rewrite !primitives_leds, !primitives_pockets.
Qed.

(** The objects of the document returned, with the constants of the file. *)
Lemma objects_defaults (K : Part.Kernel) :
  Document.Objects (fst (create_faceplate defaults K))
  = let feature name shape view :=
      Document.mkObject "Part::Feature"%string name shape view in
    let p0 := Vector (-40) (-12) 0 in
    let p1 := Vector 0 (-12) 0 in
    let p2 := Vector 40 (-12) 0 in
    let grey := Document.mkViewObject 50 None in
    let blue := Document.mkViewObject 70 (Some (0.2, 0.4, 0.8)) in
    [ feature "HeatingFaceplate"%string (faceplate defaults K) (Document.mkViewObject 0 None);
      feature "BILRESA_Plate_1"%string (plate defaults K p0) grey;
      feature "BILRESA_Plate_2"%string (plate defaults K p1) grey;
      feature "BILRESA_Plate_3"%string (plate defaults K p2) grey;
      feature "Shelly_1"%string (shelly_box defaults p0) blue;
      feature "Shelly_2"%string (shelly_box defaults p1) blue;
      feature "Shelly_3"%string (shelly_box defaults p2) blue ].
Proof.
  unfold create_faceplate. rewrite enumerate_positions_defaults. reflexivity.
Qed.

Lemma reference_box_not_in_faceplate (K : Part.Kernel) (s box : Part.Shape) :
  primitives s = [box] ->
  ~ In box (primitives (faceplate defaults failing_kernel)) ->
  ~ subshape s (faceplate defaults K).
Proof.
  intros Hs Hnot Hsub. apply Hnot.
  apply subshape_primitives in Hsub. rewrite primitives_faceplate, Hs in Hsub.
  apply Hsub. now left.
Qed.

(** Registering the reference solids appends 2 objects per position and
    leaves the faceplate object, registered first, as it was. *)
Lemma create_faceplate_frame (G : Globals) (K : Part.Kernel) :
  Document.object (fst (create_faceplate G K)) 0
  = Document.object (doc_with_faceplate G K) 0
  /\ List.length (Document.Objects (fst (create_faceplate G K)))
     = (1 + 2 * List.length (bilresa_positions G))%nat.
Proof.
  unfold create_faceplate, Document.recompute. cbn [fst].
  pose proof (fold_frame (add_plate G K) (add_plate_frame G K)
                (enumerate (bilresa_positions G)) (doc_with_faceplate G K))
    as [Hlen1 Hold1].
  pose proof (fold_frame (add_shelly G) (add_shelly_frame G)
                (enumerate (bilresa_positions G))
                (fold_left (add_plate G K) (enumerate (bilresa_positions G))
                   (doc_with_faceplate G K)))
    as [Hlen2 Hold2].
  rewrite enumerate_length in Hlen1, Hlen2.
  assert (H1 : List.length (Document.Objects (doc_with_faceplate G K)) = 1%nat)
    by reflexivity.
  split.
  - rewrite Hold2 by lia. apply Hold1. lia.
  - rewrite Hlen2, Hlen1, H1. lia.
Qed.

(** C7.  For any constants and any kernel, the object registered at line 334
    holds the faceplate solid before any reference solid exists, and it is
    the same object, with the same shape, in the document returned, which
    holds one plate and one Shelly box per position besides.  With the
    constants of the file no reference solid, filleted or not, is the
    faceplate solid or an operand of any cut, fuse or fillet inside it. *)
Theorem reference_solids_leave_faceplate_unchanged :
  (forall G K,
     let doc := fst (create_faceplate G K) in
     Document.object (doc_with_faceplate G K) 0
     = Some (Document.mkObject "Part::Feature"%string "HeatingFaceplate"%string (faceplate G K)
               (Document.mkViewObject 0 None))
     /\ Document.object doc 0 = Document.object (doc_with_faceplate G K) 0
     /\ List.length (Document.Objects doc)
        = (1 + 2 * List.length (bilresa_positions G))%nat)
  /\ (forall K i o,
        (1 <= i)%nat ->
        Document.object (fst (create_faceplate defaults K)) i = Some o ->
        ~ subshape (Document.Shape o) (faceplate defaults K)
        /\ ~ subshape (unfilleted (Document.Shape o)) (faceplate defaults K)).
Proof.
  split.
  - intros G K. cbv zeta. split; [reflexivity|]. apply create_faceplate_frame.
  - intros K i o Hi Ho. unfold Document.object in Ho.
    rewrite objects_defaults in Ho. cbv zeta in Ho.
    destruct i as [|[|[|[|[|[|[|i]]]]]]]; [lia| | | | | | |];
      cbn [nth_error] in Ho; try (destruct i; discriminate Ho);
      injection Ho as <-; cbn [Document.Shape];
      (split;
       (eapply (reference_box_not_in_faceplate K);
        [ unfold plate, plate_box; rewrite ?unfilleted_fillet_or_box;
          rewrite ?primitives_fillet_or_box; reflexivity | ])).
    all: vm_compute; intros H;
      repeat (destruct H as [H|H]; [discriminate H|]); exact H.
Qed.

Lemma reference_solids_leave_faceplate_unchanged_witness :
  ~ subshape (plate defaults sound_kernel (Vector (-40) (-12) 0))
      (faceplate defaults sound_kernel).
Proof.
  refine (proj1 (proj2 reference_solids_leave_faceplate_unchanged sound_kernel 1%nat
                   (Document.mkObject "Part::Feature" "BILRESA_Plate_1"
                      (plate defaults sound_kernel (Vector (-40) (-12) 0))
                      (Document.mkViewObject 50 None)) _ _));
    [lia | vm_compute; reflexivity].
Defined.

(** ** Fillet failures *)

Lemma makeFillet_None (K : Part.Kernel) (s : Part.Shape) (r : float)
    (edges : list Part.Edge) :
  Part.makeFillet K s r edges = None <-> Part.fillet_raises K r edges s = true.
Proof.
  unfold Part.makeFillet. destruct (Part.fillet_raises K r edges s); split;
    intros H; try reflexivity; discriminate H.
Qed.

(** C8.  At both fillet attempts, the pocket's and the reference plate's,
    a [makeFillet] that raises leaves the unfilleted box as the result.
    Whatever the kernel does at the fillets, [create_faceplate] returns its
    document with the faceplate and two reference objects per position, and
    prints the same lines, the summary and nothing else. *)
Theorem fillet_failure_falls_back (G : Globals) (K : Part.Kernel) :
  (forall pos,
     Part.makeFillet K (pocket_box G pos) (pocket_corner_radius G - 0.1)
       (edges_to_fillet (pocket_box G pos)) = None ->
     pocket G K pos = pocket_box G pos)
  /\ (forall pos,
        Part.makeFillet K (plate_box G pos) (BILRESA_CORNER_RADIUS G - 0.1)
          (edges_to_fillet (plate_box G pos)) = None ->
        plate G K pos = plate_box G pos)
  /\ pocket_cuts G failing_kernel = map (pocket_box G) (bilresa_positions G)
  /\ List.length (Document.Objects (fst (create_faceplate G K)))
     = (1 + 2 * List.length (bilresa_positions G))%nat
  /\ snd (create_faceplate G K) = summary G
  /\ (forall K', snd (create_faceplate G K) = snd (create_faceplate G K')).
Proof.
  split; [|split; [|split; [|split; [|split]]]].
  - intros pos H. apply makeFillet_None in H. now apply fillet_or_box_raises.
  - intros pos H. apply makeFillet_None in H. now apply fillet_or_box_raises.
  - rewrite pocket_cuts_eq. apply map_ext. intros pos.
    now apply fillet_or_box_raises.
  - apply create_faceplate_frame.
  - reflexivity.
  - reflexivity.
Qed.

Lemma fillet_failure_falls_back_witness :
  Part.makeFillet failing_kernel (pocket_box defaults (Vector 0 (-12) 0))
    (pocket_corner_radius defaults - 0.1)
    (edges_to_fillet (pocket_box defaults (Vector 0 (-12) 0))) = None
  /\ pocket defaults failing_kernel (Vector 0 (-12) 0)
     = pocket_box defaults (Vector 0 (-12) 0).
Proof.
  split; [reflexivity|].
  apply (proj1 (fillet_failure_falls_back defaults failing_kernel)).
  reflexivity.
Defined.

(** C9.  With the constants of the file the radius passed to the pocket's
    [makeFillet] is 8.3: the stadium radius of the pocket, which is half the
    pocket width, 8.4, less 0.1.  It is below half the pocket width, and
    twice it is below the pocket width.  This is the radius of every pocket
    fillet that is made. *)
Theorem pocket_fillet_radius_below_half_width :
  let G := defaults in
  let r := pocket_corner_radius G - 0.1 in
  (r = 8.3
   /\ pocket_width G / 2 = 8.4
   /\ pocket_corner_radius G = pocket_width G / 2
   /\ r = pocket_width G / 2 - 0.1
   /\ PrimFloat.ltb r (pocket_width G / 2) = true
   /\ PrimFloat.ltb (r + r) (pocket_width G) = true)
  /\ (forall K pos,
        pocket G K pos = pocket_box G pos
        \/ pocket G K pos
           = Part.Fillet r (edges_to_fillet (pocket_box G pos)) (pocket_box G pos))
  /\ (forall s, In s (pocket_cuts G sound_kernel) ->
        exists edges,
          s = Part.Fillet 8.3 edges (unfilleted s)
          /\ List.length edges = 4%nat
          /\ forallb parallel_to_Z edges = true).
Proof.
  cbv zeta. split; [repeat split; vm_compute; reflexivity|]. split.
  - intros K pos. apply fillet_or_box_cases.
  - intros s Hs. rewrite pocket_cuts_eq, bilresa_positions_defaults in Hs.
    cbn [map In] in Hs.
    destruct Hs as [<- | [<- | [<- | []]]];
      (eexists; split; [vm_compute; reflexivity|];
       split; vm_compute; reflexivity).
Qed.

Lemma pocket_fillet_radius_below_half_width_witness :
  exists edges,
    pocket defaults sound_kernel (Vector 40 (-12) 0)
    = Part.Fillet 8.3 edges
        (unfilleted (pocket defaults sound_kernel (Vector 40 (-12) 0)))
    /\ List.length edges = 4%nat
    /\ forallb parallel_to_Z edges = true.
Proof.
  apply (proj2 (proj2 pocket_fillet_radius_below_half_width)).
  vm_compute. right. right. left. reflexivity.
Defined.

(** C10.  [create_faceplate] never reads BILRESA_POCKET_DEPTH: rebinding it
    changes neither the document nor the printed lines, so two modules that
    agree on every other constant build the same thing.  The constant is
    0.7 in the file, while every pocket box runs from z = 0 to
    z = FACEPLATE_THICKNESS - BILRESA_FRONT_WALL = 3.0. *)
Theorem BILRESA_POCKET_DEPTH_never_read :
  (forall G K d,
     create_faceplate (with_BILRESA_POCKET_DEPTH d G) K = create_faceplate G K)
  /\ (forall G1 G2 K,
        with_BILRESA_POCKET_DEPTH 0 G1 = with_BILRESA_POCKET_DEPTH 0 G2 ->
        create_faceplate G1 K = create_faceplate G2 K)
  /\ BILRESA_POCKET_DEPTH defaults = 0.7
  /\ pocket_z_depth defaults = 3.0
  /\ pocket_z_depth defaults
     = FACEPLATE_THICKNESS defaults - BILRESA_FRONT_WALL defaults
  /\ pocket_z_depth defaults <> BILRESA_POCKET_DEPTH defaults
  /\ (forall K s, In s (pocket_cuts defaults K) ->
        z_range (unfilleted s) = Some (0, 3.0)).
Proof.
  assert (Hset : forall G K d,
            create_faceplate (with_BILRESA_POCKET_DEPTH d G) K = create_faceplate G K)
    by reflexivity.
  split; [exact Hset|]. split.
  - intros G1 G2 K H. rewrite <- (Hset G1 K 0), <- (Hset G2 K 0). now rewrite H.
  - split; [reflexivity|]. split; [vm_compute; reflexivity|].
    split; [reflexivity|]. split; [vm_compute; intros H; discriminate H|].
    intros K s Hs. rewrite pocket_cuts_eq in Hs.
    apply in_map_iff in Hs as (pos & <- & _).
    unfold pocket, pocket_box. rewrite unfilleted_fillet_or_box.
    vm_compute. reflexivity.
Qed.

Lemma BILRESA_POCKET_DEPTH_never_read_witness :
  create_faceplate defaults sound_kernel
  = create_faceplate (with_BILRESA_POCKET_DEPTH 3.0 defaults) sound_kernel.
Proof.
  apply (proj1 (proj2 BILRESA_POCKET_DEPTH_never_read)). reflexivity.
Defined.

(** * More of [create_faceplate] *)

(** ** Python's [==] on floats *)

Lemma SFcompare_antisym (f1 f2 : SpecFloat.spec_float) :
  SpecFloat.SFcompare f2 f1 = option_map CompOpp (SpecFloat.SFcompare f1 f2).
Proof.
  destruct f1 as [s1|s1| |s1 m1 e1], f2 as [s2|s2| |s2 m2 e2]; simpl;
    try (destruct s1); try (destruct s2); try reflexivity;
    rewrite (Z.compare_antisym e2 e1);
    destruct (e2 ?= e1)%Z; simpl; try reflexivity;
    pose proof (Pos.compare_cont_antisym m1 m2 Eq) as H; simpl in H;
    rewrite <- H; now rewrite ?CompOpp_involutive.
Qed.

Lemma float_eqb_sym (a b : float) : PrimFloat.eqb a b = PrimFloat.eqb b a.
Proof.
  rewrite !FloatAxioms.eqb_spec. unfold SpecFloat.SFeqb.
  rewrite (SFcompare_antisym (Prim2SF a) (Prim2SF b)).
  destruct (SpecFloat.SFcompare (Prim2SF a) (Prim2SF b)) as [[]|]; reflexivity.
Qed.

(** ** Which edges are filleted *)

Lemma forallb_filter {A : Type} (f : A -> bool) (l : list A) :
  forallb f (filter f l) = true.
Proof.
  induction l as [|a l IH]; simpl; [reflexivity|].
  destruct (f a) eqn:E; simpl; [now rewrite E|exact IH].
Qed.



(** X2.  Lines 175-181 and 363-369 on a box: with no edge selected the
    kernel is not asked and the box is the result, even where the kernel
    would fillet; and a fillet in the result is the fillet of that very box,
    with the radius asked for, on the selected edges, which are then not
    empty and all parallel to Z, and which the kernel accepted. *)
Theorem fillet_only_on_selected_edges (K : Part.Kernel) (l w h r : float)
    (p : FreeCAD.Vector) :
  let box := Part.Box l w h p in
  (edges_to_fillet box = [] -> fillet_or_box K box r = box)
  /\ (forall rad es b,
        fillet_or_box K box r = Part.Fillet rad es b ->
        rad = r /\ b = box /\ es = edges_to_fillet box /\ es <> []
        /\ forallb parallel_to_Z es = true
        /\ incl es (Part.Edges box)
        /\ Part.fillet_raises K r es box = false).
Proof.
  cbv zeta. split.
  - intros H. unfold fillet_or_box. now rewrite H.
  - intros rad es b H. unfold fillet_or_box, Part.makeFillet in H.
    destruct (edges_to_fillet (Part.Box l w h p)) as [|e es'] eqn:E;
      [discriminate H|].
    destruct (Part.fillet_raises K r (e :: es') (Part.Box l w h p)) eqn:R;
      [discriminate H|].
    injection H as <- <- <-.
    repeat split; try reflexivity; try assumption.
    + discriminate.
    + rewrite <- E. apply forallb_filter.
    + rewrite <- E. intros a Ha. unfold edges_to_fillet in Ha.
      now apply filter_In in Ha.
Qed.

Lemma fillet_only_on_selected_edges_witness :
  Part.fillet_raises sound_kernel (pocket_corner_radius defaults - 0.1)
    (edges_to_fillet (pocket_box defaults (Vector 0 (-12) 0)))
    (pocket_box defaults (Vector 0 (-12) 0)) = false.
Proof.
  refine (proj2 (proj2 (proj2 (proj2 (proj2 (proj2
    (proj2 (fillet_only_on_selected_edges sound_kernel
              (pocket_width defaults) (pocket_length defaults)
              (pocket_z_depth defaults) (pocket_corner_radius defaults - 0.1)
              (Vector (0 - pocket_width defaults / 2)
                      (-12 - pocket_length defaults / 2) 0))
       (pocket_corner_radius defaults - 0.1)
       (edges_to_fillet (pocket_box defaults (Vector 0 (-12) 0)))
       (pocket_box defaults (Vector 0 (-12) 0)) _)))))));
    vm_compute; reflexivity.
Defined.

(** ** Loops over the positions *)

Lemma range_length (n : Z) : List.length (range n) = Z.to_nat n.
Proof. unfold range. now rewrite length_map, length_seq. Qed.

Lemma bilresa_positions_length (G : Globals) :
  List.length (bilresa_positions G) = Z.to_nat (NUM_BILRESA G).
Proof. unfold bilresa_positions. now rewrite length_map, range_length. Qed.

Lemma combine_seq_snd {A : Type} (l : list A) (s : nat) :
  map snd (combine (map Z.of_nat (seq s (List.length l))) l) = l.
Proof.
  revert s. induction l as [|a l IH]; intros s; simpl; [reflexivity|].
  now rewrite IH.
Qed.

Lemma enumerate_snd {A : Type} (l : list A) : map snd (enumerate l) = l.
Proof. unfold enumerate, range. rewrite Nat2Z.id. apply combine_seq_snd. Qed.

Lemma combine_seq_nth {A : Type} (l : list A) (s i : nat) (a : A) :
  nth_error l i = Some a ->
  nth_error (combine (map Z.of_nat (seq s (List.length l))) l) i
  = Some (Z.of_nat (s + i), a).
Proof.
  revert s i. induction l as [|b l IH]; intros s [|i] H; simpl in *;
    try discriminate H.
  - injection H as <-. now rewrite Nat.add_0_r.
  - rewrite (IH (S s) i H). now rewrite Nat.add_succ_r.
Qed.

Lemma enumerate_nth {A : Type} (l : list A) (i : nat) (a : A) :
  nth_error l i = Some a -> nth_error (enumerate l) i = Some (Z.of_nat i, a).
Proof.
  intros H. unfold enumerate, range. rewrite Nat2Z.id.
  now rewrite (combine_seq_nth l 0 i a H).
Qed.

Lemma flat_map_snd {A B C : Type} (f : B -> list C) (l : list (A * B)) :
  flat_map (fun ab => f (snd ab)) l = flat_map f (map snd l).
Proof. induction l as [|ab l IH]; simpl; [reflexivity|]. now rewrite IH. Qed.

Lemma cut_blank_screws (G : Globals) (ps : list FreeCAD.Vector) (s : Part.Shape) :
  cut_blank (fold_left (cut_screw G) ps s) = cut_blank s.
Proof. revert s. induction ps as [|p ps IH]; intros s; simpl; [reflexivity|]. now rewrite IH. Qed.

Lemma cut_blank_pockets (G : Globals) (K : Part.Kernel)
    (ps : list FreeCAD.Vector) (s : Part.Shape) :
  cut_blank (fold_left (cut_pocket G K) ps s) = cut_blank s.
Proof. revert s. induction ps as [|p ps IH]; intros s; simpl; [reflexivity|]. now rewrite IH. Qed.

Lemma cut_blank_leds (G : Globals) (ips : list (Z * FreeCAD.Vector)) (s : Part.Shape) :
  cut_blank (fold_left (cut_led G) ips s) = cut_blank s.
Proof. revert s. induction ips as [|p ps IH]; intros s; simpl; [reflexivity|]. now rewrite IH. Qed.


(** ** No positions *)

Lemma fold_fuse_isNull (G : Globals) (ips : list (Z * FreeCAD.Vector)) (s : Part.Shape) :
  Part.isNull s = false ->
  Part.isNull (fold_left (fun acc ip => Part.Fuse acc (cradle G (snd ip))) ips s)
  = false.
Proof.
  revert s. induction ips as [|ip ips IH]; intros s Hs; simpl; [exact Hs|].
  now apply IH.
Qed.

Lemma bilresa_positions_nil (G : Globals) :
  bilresa_positions G = [] <-> (NUM_BILRESA G <= 0)%Z.
Proof.
  rewrite <- length_zero_iff_nil, bilresa_positions_length. lia.
Qed.

(** The document of line 335 holds one object, the faceplate. *)
Lemma doc_with_faceplate_eq (G : Globals) (K : Part.Kernel) :
  doc_with_faceplate G K
  = Document.mkDocument "HeatingFaceplate"
      [Document.mkObject "Part::Feature" "HeatingFaceplate" (faceplate G K)
         (Document.mkViewObject 0 None)].
Proof. reflexivity. Qed.



(** ** What the reference loops register *)

Lemma update_last {A : Type} (l : list A) (a : A) (f : A -> A) :
  Document.update (l ++ [a]) (List.length l) f = l ++ [f a].
Proof. induction l as [|b l IH]; simpl; [reflexivity|]. now rewrite IH. Qed.

Lemma add_plate_appends (G : Globals) (K : Part.Kernel) (doc : Document.t)
    (ip : Z * FreeCAD.Vector) :
  add_plate G K doc ip
  = Document.mkDocument (Document.DocName doc)
      (Document.Objects doc ++ [plate_object G K ip]).
Proof.
  destruct ip as [i pos].
  unfold add_plate, Document.addObject, Document.set_Transparency,
    Document.set_Shape, Document.modify, plate_object.
  cbn [Document.Objects Document.DocName fst snd].
  now rewrite !update_last.
Qed.

Lemma add_shelly_appends (G : Globals) (doc : Document.t) (ip : Z * FreeCAD.Vector) :
  add_shelly G doc ip
  = Document.mkDocument (Document.DocName doc)
      (Document.Objects doc ++ [shelly_object G ip]).
Proof.
  destruct ip as [i pos].
  unfold add_shelly, Document.addObject, Document.set_ShapeColor,
    Document.set_Transparency, Document.set_Shape, Document.modify, shelly_object.
  cbn [Document.Objects Document.DocName fst snd].
  now rewrite !update_last.
Qed.

Lemma fold_appends {A : Type} (step : Document.t -> A -> Document.t)
    (obj : A -> Document.DocumentObject) :
  (forall doc a,
     step doc a
     = Document.mkDocument (Document.DocName doc) (Document.Objects doc ++ [obj a])) ->
  forall l doc,
    fold_left step l doc
    = Document.mkDocument (Document.DocName doc) (Document.Objects doc ++ map obj l).
Proof.
  intros Hstep l. induction l as [|a l IH]; intros doc; simpl.
  - rewrite app_nil_r. now destruct doc.
  - rewrite IH, Hstep. cbn [Document.Objects Document.DocName].
    now rewrite <- app_assoc.
Qed.

(** The document returned, object by object. *)
Lemma create_faceplate_document (G : Globals) (K : Part.Kernel) :
  fst (create_faceplate G K)
  = Document.mkDocument "HeatingFaceplate"
      (Document.mkObject "Part::Feature" "HeatingFaceplate" (faceplate G K)
         (Document.mkViewObject 0 None)
       :: map (plate_object G K) (enumerate (bilresa_positions G))
       ++ map (shelly_object G) (enumerate (bilresa_positions G))).
Proof.
  unfold create_faceplate, Document.recompute. cbn [fst].
  rewrite (fold_appends (add_plate G K) (plate_object G K) (add_plate_appends G K)).
  rewrite (fold_appends (add_shelly G) (shelly_object G) (add_shelly_appends G)).
  rewrite doc_with_faceplate_eq. cbn [Document.Objects Document.DocName].
  now rewrite <- app_assoc.
Qed.



(** ** Object names *)

Lemma to_int_not_nil (n : Z) :
  Z.to_int n <> Decimal.Pos Decimal.Nil /\ Z.to_int n <> Decimal.Neg Decimal.Nil.
Proof.
  destruct n; simpl; split; try discriminate; intros H; injection H as H;
    now apply Unsigned.to_uint_nonnil in H.
Qed.

Lemma str_of_int_inj (a b : Z) : str_of_int a = str_of_int b -> a = b.
Proof.
  intros H. apply DecimalZ.to_int_inj.
  destruct (to_int_not_nil a) as [A1 A2], (to_int_not_nil b) as [B1 B2].
  pose proof (NilZero.isi _ A1 A2) as Ha. pose proof (NilZero.isi _ B1 B2) as Hb.
  unfold str_of_int in H. rewrite H in Ha. rewrite Ha in Hb. now injection Hb.
Qed.

Lemma append_inj_l (p s t : string) : (p ++ s = p ++ t)%string -> s = t.
Proof.
  induction p as [|c p IH]; simpl; intros H; [exact H|]. injection H as H. auto.
Qed.

Lemma enumerate_fst_NoDup {A : Type} (l : list A) : NoDup (map fst (enumerate l)).
Proof.
  unfold enumerate, range. rewrite Nat2Z.id.
  assert (H : forall s, map fst (combine (map Z.of_nat (seq s (List.length l))) l)
                        = map Z.of_nat (seq s (List.length l))).
  { induction l as [|a l IH]; intros s; simpl; [reflexivity|]. now rewrite IH. }
  rewrite H. apply NoDup_map_NoDup_ForallPairs; [|apply seq_NoDup].
  intros a b _ _ E. now apply Nat2Z.inj.
Qed.

Lemma numbered_names_NoDup {A : Type} (prefix : string) (l : list (Z * A)) :
  NoDup (map fst l) ->
  NoDup (map (fun ip => (prefix ++ str_of_int (fst ip + 1))%string) l).
Proof.
  intros H.
  rewrite <- (map_map fst (fun i => (prefix ++ str_of_int (i + 1))%string)).
  apply NoDup_map_NoDup_ForallPairs; [|exact H].
  intros a b _ _ E. apply append_inj_l, str_of_int_inj in E. lia.
Qed.

(** X6.  For any constants and kernel the names asked of [addObject],
    HeatingFaceplate, BILRESA_Plate_1.., Shelly_1.., are pairwise different,
    however many positions there are: no object is registered under a name
    already taken in the document. *)
Theorem object_names_distinct (G : Globals) (K : Part.Kernel) :
  NoDup (map Document.Name (Document.Objects (fst (create_faceplate G K)))).
Proof.
  rewrite create_faceplate_document. cbn [Document.Objects map].
  rewrite map_app, !map_map.
  pose proof (enumerate_fst_NoDup (bilresa_positions G)) as Hfst.
  constructor.
  - intros Hin. apply in_app_or in Hin.
    destruct Hin as [Hin|Hin]; apply in_map_iff in Hin as (ip & E & _);
      cbn in E; discriminate E.
  - apply NoDup_app.
    + apply (numbered_names_NoDup "BILRESA_Plate_" _ Hfst).
    + apply (numbered_names_NoDup "Shelly_" _ Hfst).
    + intros a Ha Hb.
      apply in_map_iff in Ha as (ip & Ea & _).
      apply in_map_iff in Hb as (iq & Eb & _).
      rewrite <- Eb in Ea. cbn in Ea. discriminate Ea.
Qed.

(** ** Fillets change the rounding only *)

Lemma strip_fillets_screws (G : Globals) (ps : list FreeCAD.Vector) (s : Part.Shape) :
  strip_fillets (fold_left (cut_screw G) ps s)
  = fold_left (cut_screw G) ps (strip_fillets s).
Proof.
  revert s. induction ps as [|p ps IH]; intros s; simpl; [reflexivity|].
  now rewrite IH.
Qed.

Lemma pocket_failing_kernel (G : Globals) (pos : FreeCAD.Vector) :
  pocket G failing_kernel pos = pocket_box G pos.
Proof. now apply fillet_or_box_raises. Qed.

Lemma strip_fillets_pocket (G : Globals) (K : Part.Kernel) (pos : FreeCAD.Vector) :
  strip_fillets (pocket G K pos) = pocket_box G pos.
Proof.
  unfold pocket.
  destruct (fillet_or_box_cases K (pocket_box G pos) (pocket_corner_radius G - 0.1))
    as [E|E]; now rewrite E.
Qed.

Lemma strip_fillets_pockets (G : Globals) (K : Part.Kernel)
    (ps : list FreeCAD.Vector) (s : Part.Shape) :
  strip_fillets (fold_left (cut_pocket G K) ps s)
  = fold_left (cut_pocket G failing_kernel) ps (strip_fillets s).
Proof.
  revert s. induction ps as [|p ps IH]; intros s; simpl; [reflexivity|].
  rewrite IH. unfold cut_pocket at 2 4. unfold Part.cut. simpl.
  now rewrite strip_fillets_pocket, pocket_failing_kernel.
Qed.

Lemma strip_fillets_leds (G : Globals) (ips : list (Z * FreeCAD.Vector)) (s : Part.Shape) :
  strip_fillets (fold_left (cut_led G) ips s)
  = fold_left (cut_led G) ips (strip_fillets s).
Proof.
  revert s. induction ips as [|p ps IH]; intros s; simpl; [reflexivity|].
  now rewrite IH.
Qed.

Lemma strip_fillets_housings (G : Globals) (ips : list (Z * FreeCAD.Vector))
    (s : Part.Shape) :
  strip_fillets s = s ->
  strip_fillets (fold_left (add_cradle G) ips s) = fold_left (add_cradle G) ips s.
Proof.
  revert s. induction ips as [|ip ips IH]; intros s Hs; simpl; [exact Hs|].
  apply IH. unfold add_cradle. destruct (Part.isNull s); [reflexivity|].
  unfold Part.fuse. simpl. now rewrite Hs.
Qed.

(** X7.  Whatever the kernel does at the fillets, the manufactured solid is
    the same chain of cuts and fuses of the same solids: replacing each
    fillet by the box it rounds gives the solid built when every fillet
    fails, and that solid holds no fillet at all. *)
Theorem fillets_change_rounding_only (G : Globals) (K : Part.Kernel) :
  strip_fillets (faceplate G K) = faceplate G failing_kernel
  /\ strip_fillets (faceplate G failing_kernel) = faceplate G failing_kernel
  /\ primitives (faceplate G K) = primitives (faceplate G failing_kernel)
  /\ List.length (cut_tools (faceplate_leds G K))
     = List.length (cut_tools (faceplate_leds G failing_kernel)).
Proof.
  assert (H : forall K', strip_fillets (faceplate G K') = faceplate G failing_kernel).
  { intros K'. unfold faceplate, faceplate_leds, faceplate_pockets, faceplate_screws,
      shelly_housings, Part.fuse. cbn [strip_fillets].
    rewrite strip_fillets_leds, strip_fillets_pockets, strip_fillets_screws.
    now rewrite strip_fillets_housings. }
  split; [apply H|]. split; [apply H|]. split; [apply primitives_faceplate|].
  unfold faceplate_leds, faceplate_pockets.
  now rewrite !cut_tools_leds, !cut_tools_pockets, !length_app, !length_map.
Qed.

(** ** The cradles, for any number of positions *)

Lemma fold_left_snd {A B C : Type} (f : C -> B -> C) (l : list (A * B)) (c : C) :
  fold_left (fun acc ab => f acc (snd ab)) l c = fold_left f (map snd l) c.
Proof. revert c. induction l as [|ab l IH]; intros c; simpl; [reflexivity|]. apply IH. Qed.

Lemma primitives_fold_fuse (G : Globals) (ps : list FreeCAD.Vector) (s : Part.Shape) :
  primitives (fold_left (fun acc q => Part.Fuse acc (cradle G q)) ps s)
  = primitives s ++ flat_map (cradle_boxes G) ps.
Proof.
  revert s. induction ps as [|p ps IH]; intros s; simpl.
  - now rewrite app_nil_r.
  - rewrite IH. cbn [primitives]. rewrite <- app_assoc. reflexivity.
Qed.

Lemma shelly_housings_structure (G : Globals) :
  (forall p ps,
     bilresa_positions G = p :: ps ->
     shelly_housings G
     = fold_left (fun acc q => Part.Fuse acc (cradle G q)) ps (cradle G p))
  /\ primitives (shelly_housings G) = flat_map (cradle_boxes G) (bilresa_positions G).
Proof.
  assert (Hcons : forall p ps,
            bilresa_positions G = p :: ps ->
            shelly_housings G
            = fold_left (fun acc q => Part.Fuse acc (cradle G q)) ps (cradle G p)).
  { intros p ps E. unfold shelly_housings.
    pose proof (enumerate_snd (bilresa_positions G)) as Hsnd. rewrite E in Hsnd.
    rewrite E. destruct (enumerate (p :: ps)) as [|ip ips]; [discriminate Hsnd|].
    cbn [map] in Hsnd. injection Hsnd as Hp Hps.
    rewrite shelly_housings_cons.
    rewrite (fold_left_snd (fun acc q => Part.Fuse acc (cradle G q))).
    now rewrite Hp, Hps. }
  assert (Hprim : primitives (shelly_housings G)
                  = flat_map (cradle_boxes G) (bilresa_positions G)).
  { destruct (bilresa_positions G) as [|p ps] eqn:E.
    - unfold shelly_housings. now rewrite E.
    - rewrite (Hcons p ps eq_refl), primitives_fold_fuse. reflexivity. }
  split; [exact Hcons | exact Hprim].
Qed.



(** ** The summary *)



(** ** The layout in plan, with the constants of the file *)

Lemma footprint_fillet_or_box (K : Part.Kernel) (box : Part.Shape) (r : float) :
  footprint (fillet_or_box K box r) = footprint box.
Proof.
  destruct (fillet_or_box_cases K box r) as [E|E]; now rewrite E.
Qed.

Lemma z_range_fillet_or_box (K : Part.Kernel) (l w h r : float) (p : FreeCAD.Vector) :
  z_range (unfilleted (fillet_or_box K (Part.Box l w h p) r))
  = z_range (Part.Box l w h p).
Proof. now rewrite unfilleted_fillet_or_box. Qed.

(** X10.  Seen along Z, the two countersinks, the three pockets and the
    three LED recesses lie strictly inside the outline of the base box and
    no two of them meet, whether the pockets are filleted or not; each screw
    hole and each LED hole lies within one of these footprints. *)
Theorem cut_features_apart_inside_blank (K : Part.Kernel) :
  let G := defaults in
  let ps := bilresa_positions G in
  exists blank features holes,
    footprint (base_box G) = Some blank
    /\ footprints (map (countersink G) (screw_positions G)
                   ++ map (pocket G K) ps ++ map (led_recess G) ps)
       = Some features
    /\ footprints (map (screw_hole G) (screw_positions G) ++ map (led_hole G) ps)
       = Some holes
    /\ List.length features = 8%nat
    /\ pairwise_disjoint features = true
    /\ forallb (fun r => rect_inside r blank) features = true
    /\ forallb (fun h => existsb (rect_within h) features) holes = true.
Proof.
  cbv zeta. rewrite bilresa_positions_defaults. unfold screw_positions.
  cbn [map app footprints]. unfold pocket. rewrite !footprint_fillet_or_box.
  eexists _, _, _. split; [reflexivity|]. split; [vm_compute; reflexivity|].
  split; [vm_compute; reflexivity|]. repeat split; vm_compute; reflexivity.
Qed.

(** X11.  Seen along Z, the three cradles lie strictly inside the outline
    of the base box, no two of them meet, and none meets the footprint of a
    screw countersink or of an LED recess: fusing the cradles on after the
    cuts closes no through hole. *)
Theorem cradles_clear_of_through_holes :
  let G := defaults in
  let ps := bilresa_positions G in
  exists blank c0 c1 c2 throughs,
    footprint (base_box G) = Some blank
    /\ map (cradle_footprint G) ps = [Some c0; Some c1; Some c2]
    /\ footprints (map (countersink G) (screw_positions G) ++ map (led_recess G) ps)
       = Some throughs
    /\ List.length throughs = 5%nat
    /\ pairwise_disjoint [c0; c1; c2] = true
    /\ forallb (fun c => rect_inside c blank) [c0; c1; c2] = true
    /\ forallb (fun c => forallb (rect_disjoint c) throughs) [c0; c1; c2] = true.
Proof.
  cbv zeta. eexists _, _, _, _, _. split; [reflexivity|].
  split; [vm_compute; reflexivity|]. split; [vm_compute; reflexivity|].
  repeat split; vm_compute; reflexivity.
Qed.

(** X12.  The box of each reference plate lies, seen along Z, strictly
    inside the box of its pocket (both taken before any rounding, whatever
    the kernel did at the fillets), starts above the back face and ends at
    the same height as the pocket: it rests against the front wall. *)
Theorem reference_plate_inside_pocket (K : Part.Kernel) (pos : FreeCAD.Vector) :
  In pos (bilresa_positions defaults) ->
  let G := defaults in
  exists fp fq lo hi top,
    footprint (plate G K pos) = Some fp
    /\ footprint (pocket G K pos) = Some fq
    /\ rect_inside fp fq = true
    /\ z_range (unfilleted (plate G K pos)) = Some (lo, hi)
    /\ z_range (unfilleted (pocket G K pos)) = Some (0, top)
    /\ PrimFloat.ltb 0 lo = true
    /\ hi = top
    /\ hi - lo = BILRESA_THICKNESS G
    /\ FACEPLATE_THICKNESS G - hi = BILRESA_FRONT_WALL G.
Proof.
  intros Hpos. cbv zeta. rewrite bilresa_positions_defaults in Hpos.
  unfold plate, pocket, plate_box, pocket_box.
  rewrite !footprint_fillet_or_box, !unfilleted_fillet_or_box.
  cbn [In] in Hpos.
  destruct Hpos as [<- | [<- | [<- | []]]];
    (eexists _, _, _, _, _; split; [reflexivity|]; split; [reflexivity|];
     split; [vm_compute; reflexivity|]; split; [reflexivity|];
     split; [vm_compute; reflexivity|]; repeat split; vm_compute; reflexivity).
Qed.

Lemma reference_plate_inside_pocket_witness :
  exists fp fq lo hi top,
    footprint (plate defaults sound_kernel (Vector 40 (-12) 0)) = Some fp
    /\ footprint (pocket defaults sound_kernel (Vector 40 (-12) 0)) = Some fq
    /\ rect_inside fp fq = true
    /\ z_range (unfilleted (plate defaults sound_kernel (Vector 40 (-12) 0)))
       = Some (lo, hi)
    /\ z_range (unfilleted (pocket defaults sound_kernel (Vector 40 (-12) 0)))
       = Some (0, top)
    /\ PrimFloat.ltb 0 lo = true
    /\ hi = top
    /\ hi - lo = BILRESA_THICKNESS defaults
    /\ FACEPLATE_THICKNESS defaults - hi = BILRESA_FRONT_WALL defaults.
Proof.
  apply (reference_plate_inside_pocket sound_kernel (Vector 40 (-12) 0)).
  vm_compute. right. right. left. reflexivity.
Defined.

(** X13.  Each reference Shelly box runs in Z from the top of the cradle's
    lips to the back face z = 0, and with the clearance of the file, -0.75,
    it reaches into the left guide, the right guide and the shelf of its
    cradle by 0.375 each, half the clearance with the sign changed. *)
Theorem reference_shelly_interference (pos : FreeCAD.Vector) :
  In pos (bilresa_positions defaults) ->
  let G := defaults in
  let x := FreeCAD.x pos in
  exists x0 x1 y0 y1 z0 gl0 gl1 gr0 gr1 s0 s1 l0 l1 r0 r1,
    x_range (shelly_box G pos) = Some (x0, x1)
    /\ y_range (shelly_box G pos) = Some (y0, y1)
    /\ z_range (shelly_box G pos) = Some (z0, 0)
    /\ x_range (left_guide G x) = Some (gl0, gl1)
    /\ x_range (right_guide G x) = Some (gr0, gr1)
    /\ y_range (shelf G x) = Some (s0, s1)
    /\ z_range (left_lip G x) = Some (l0, l1)
    /\ z_range (right_lip G x) = Some (r0, r1)
    /\ gl1 - x0 = - SHELLY_CLEARANCE G / 2
    /\ x1 - gr0 = - SHELLY_CLEARANCE G / 2
    /\ s1 - y0 = - SHELLY_CLEARANCE G / 2
    /\ - SHELLY_CLEARANCE G / 2 = 0.375
    /\ l1 = z0 /\ r1 = z0.
Proof.
  intros Hpos. cbv zeta. rewrite bilresa_positions_defaults in Hpos.
  cbn [In] in Hpos.
  destruct Hpos as [<- | [<- | [<- | []]]];
    (eexists _, _, _, _, _, _, _, _, _, _, _, _, _, _, _;
     split; [reflexivity|]; split; [reflexivity|];
     split; [vm_compute; reflexivity|];
     split; [reflexivity|]; split; [reflexivity|]; split; [reflexivity|];
     split; [reflexivity|]; split; [reflexivity|];
     repeat split; vm_compute; reflexivity).
Qed.

Lemma reference_shelly_interference_witness :
  exists x0 x1 y0 y1 z0 gl0 gl1 gr0 gr1 s0 s1 l0 l1 r0 r1,
    x_range (shelly_box defaults (Vector 0 (-12) 0)) = Some (x0, x1)
    /\ y_range (shelly_box defaults (Vector 0 (-12) 0)) = Some (y0, y1)
    /\ z_range (shelly_box defaults (Vector 0 (-12) 0)) = Some (z0, 0)
    /\ x_range (left_guide defaults 0) = Some (gl0, gl1)
    /\ x_range (right_guide defaults 0) = Some (gr0, gr1)
    /\ y_range (shelf defaults 0) = Some (s0, s1)
    /\ z_range (left_lip defaults 0) = Some (l0, l1)
    /\ z_range (right_lip defaults 0) = Some (r0, r1)
    /\ gl1 - x0 = - SHELLY_CLEARANCE defaults / 2
    /\ x1 - gr0 = - SHELLY_CLEARANCE defaults / 2
    /\ s1 - y0 = - SHELLY_CLEARANCE defaults / 2
    /\ - SHELLY_CLEARANCE defaults / 2 = 0.375
    /\ l1 = z0 /\ r1 = z0.
Proof.
  apply (reference_shelly_interference (Vector 0 (-12) 0)).
  vm_compute. right. left. reflexivity.
Defined.

(** X14.  At the back face the box of each pocket is clear, seen along Z,
    of the two guides of its cradle but not of the shelf: the shelf, which
    ends on the back face z = 0 where the pocket begins, spans the pocket in
    X and reaches in Y above the lower end of the pocket box. *)
Theorem shelf_covers_pocket_end (K : Part.Kernel) (pos : FreeCAD.Vector) :
  In pos (bilresa_positions defaults) ->
  let G := defaults in
  let x := FreeCAD.x pos in
  exists fq fs fl fr top,
    footprint (pocket G K pos) = Some fq
    /\ footprint (shelf G x) = Some fs
    /\ footprint (left_guide G x) = Some fl
    /\ footprint (right_guide G x) = Some fr
    /\ rect_disjoint fq fl = true
    /\ rect_disjoint fq fr = true
    /\ rect_disjoint fq fs = false
    /\ PrimFloat.ltb (y_lo fq) (y_hi fs) = true
    /\ PrimFloat.ltb (x_lo fs) (x_lo fq) = true
    /\ PrimFloat.ltb (x_hi fq) (x_hi fs) = true
    /\ z_range (shelf G x) = Some (- cradle_depth G, 0)
    /\ z_range (unfilleted (pocket G K pos)) = Some (0, top).
Proof.
  intros Hpos. cbv zeta. rewrite bilresa_positions_defaults in Hpos.
  unfold pocket, pocket_box.
  rewrite !footprint_fillet_or_box, !unfilleted_fillet_or_box.
  cbn [In] in Hpos.
  destruct Hpos as [<- | [<- | [<- | []]]];
    (eexists _, _, _, _, _; split; [reflexivity|]; split; [reflexivity|];
     split; [reflexivity|]; split; [reflexivity|];
     repeat split; vm_compute; reflexivity).
Qed.

Lemma shelf_covers_pocket_end_witness :
  exists fq fs fl fr top,
    footprint (pocket defaults failing_kernel (Vector (-40) (-12) 0)) = Some fq
    /\ footprint (shelf defaults (-40)) = Some fs
    /\ footprint (left_guide defaults (-40)) = Some fl
    /\ footprint (right_guide defaults (-40)) = Some fr
    /\ rect_disjoint fq fl = true
    /\ rect_disjoint fq fr = true
    /\ rect_disjoint fq fs = false
    /\ PrimFloat.ltb (y_lo fq) (y_hi fs) = true
    /\ PrimFloat.ltb (x_lo fs) (x_lo fq) = true
    /\ PrimFloat.ltb (x_hi fq) (x_hi fs) = true
    /\ z_range (shelf defaults (-40)) = Some (- cradle_depth defaults, 0)
    /\ z_range (unfilleted (pocket defaults failing_kernel (Vector (-40) (-12) 0)))
       = Some (0, top).
Proof.
  apply (shelf_covers_pocket_end failing_kernel (Vector (-40) (-12) 0)).
  vm_compute. left. reflexivity.
Defined.
